(** * belvo_challenge: invoice anomaly pipeline

    A shallow embedding of the Python sources and the properties proved
    about them.  The first half of the file holds the definitions, one
    module per source file; the second half holds the lemmas.

    - [Base64]                  the two functions of Python's [base64] module
                                used by [services/belvo_service.py];
    - [BelvoService]            [services/belvo_service.py];
    - [Pandas]                  the few data-frame operations the extractor calls;
    - [InvoicesExtractor]       [app/agents/invoices_extractor.py];
    - [AnomalyDetector]         [app/agents/anomaly_detector.py];
    - [FinancialAnalysisAgent]  [app/agents/financial_analysis_agent.py]. *)

From Stdlib Require Import List String Ascii Bool Arith NArith ZArith QArith Lia.
From Stdlib Require Import Sorted.
Import ListNotations.

Close Scope Q_scope.
Local Open Scope list_scope.
Local Open Scope string_scope.

(** Python exceptions: the class name and the text [str(e)] gives. *)
Record Exception : Type := Raise { exc_class : string; exc_str : string }.

(** The outcome of a call that may raise. *)
Inductive Result (A : Type) : Type :=
| Return (a : A)
| Raised (e : Exception).
Arguments Return {A} a.
Arguments Raised {A} e.

Definition bind {A B : Type} (r : Result A) (k : A -> Result B) : Result B :=
  match r with
  | Return a => k a
  | Raised e => Raised e
  end.

Notation "x <- r ;; k" := (bind r (fun x => k))
  (at level 61, r at next level, right associativity).

(** A Python [dict] from strings to strings, as the list of its items. *)
Definition dict : Type := list (string * string).

(** [d.get(key)]: the value, or [None]. *)
Fixpoint get (d : dict) (key : string) : option string :=
  match d with
  | [] => None
  | (k, v) :: d' => if String.eqb k key then Some v else get d' key
  end.

(** The newline and the double quote, for the text of the prompts. *)
Definition nl : string := String (ascii_of_nat 10) EmptyString.
Definition dq : string := String (ascii_of_nat 34) EmptyString.

(* ================================================================= *)
(** ** Python's [base64.b64encode] and [base64.b64decode] (RFC 4648)  *)
(* ================================================================= *)

Module Base64.

(** Bytes are [ascii] values, byte strings are lists of them. *)
Definition bytes := list ascii.

Definition alphabet : string :=
  "ABCDEFGHIJKLMNOPQRSTUVWXYZabcdefghijklmnopqrstuvwxyz0123456789+/".

Definition pad : ascii := "="%char.

(** The character of a six-bit value. *)
Definition enc (n : N) : ascii :=
  match String.get (N.to_nat n) alphabet with
  | Some c => c
  | None => pad
  end.

Fixpoint index_of (c : ascii) (s : string) : option N :=
  match s with
  | EmptyString => None
  | String d s' =>
      if Ascii.eqb c d then Some 0%N
      else option_map N.succ (index_of c s')
  end.

(** The six-bit value of a character, if it is in the alphabet. *)
Definition dec (c : ascii) : option N := index_of c alphabet.

Definition byte_of (n : N) : ascii := ascii_of_N n.
Definition val (c : ascii) : N := N_of_ascii c.

(** Three bytes make 24 bits, cut into four six-bit values. *)
Definition enc3 (a b c : ascii) : bytes :=
  let n := (val a * 65536 + val b * 256 + val c)%N in
  [ enc (n / 262144); enc ((n / 4096) mod 64);
    enc ((n / 64) mod 64); enc (n mod 64) ].

(** Two trailing bytes: 16 bits, padded with two zero bits. *)
Definition enc2 (a b : ascii) : bytes :=
  let n := ((val a * 256 + val b) * 4)%N in
  [ enc (n / 4096); enc ((n / 64) mod 64); enc (n mod 64); pad ].

(** One trailing byte: 8 bits, padded with four zero bits. *)
Definition enc1 (a : ascii) : bytes :=
  let n := (val a * 16)%N in
  [ enc (n / 64); enc (n mod 64); pad; pad ].

Fixpoint b64encode (s : bytes) : bytes :=
  match s with
  | [] => []
  | [a] => enc1 a
  | [a; b] => enc2 a b
  | a :: b :: c :: rest => (enc3 a b c ++ b64encode rest)%list
  end.

Definition dec4 (s1 s2 s3 s4 : N) : bytes :=
  let n := (s1 * 262144 + s2 * 4096 + s3 * 64 + s4)%N in
  [ byte_of (n / 65536); byte_of ((n / 256) mod 256); byte_of (n mod 256) ].

Definition dec3 (s1 s2 s3 : N) : bytes :=
  let n := ((s1 * 4096 + s2 * 64 + s3) / 4)%N in
  [ byte_of (n / 256); byte_of (n mod 256) ].

Definition dec2 (s1 s2 : N) : bytes :=
  [ byte_of ((s1 * 64 + s2) / 16) ].

(** Strict decoding: the input is a sequence of four-character groups,
    padding is allowed in the last group only, and any other character
    makes the call fail ([binascii.Error]). *)
Fixpoint b64decode (s : bytes) : option bytes :=
  match s with
  | [] => Some []
  | c1 :: c2 :: c3 :: c4 :: rest =>
      match dec c1, dec c2, dec c3, dec c4 with
      | Some s1, Some s2, Some s3, Some s4 =>
          option_map (app (dec4 s1 s2 s3 s4)) (b64decode rest)
      | Some s1, Some s2, Some s3, None =>
          match rest with
          | [] => if Ascii.eqb c4 pad then Some (dec3 s1 s2 s3) else None
          | _ => None
          end
      | Some s1, Some s2, None, None =>
          match rest with
          | [] =>
              if Ascii.eqb c3 pad && Ascii.eqb c4 pad
              then Some (dec2 s1 s2) else None
          | _ => None
          end
      | _, _, _, _ => None
      end
  | _ => None
  end.

(** [str.encode()] and [bytes.decode()]: a [string] is already the
    sequence of its UTF-8 bytes. *)
Definition encode (s : string) : bytes := list_ascii_of_string s.
Definition decode (b : bytes) : string := string_of_list_ascii b.

End Base64.

(* ================================================================= *)
(** ** services/belvo_service.py                                      *)
(* ================================================================= *)

Module BelvoService.

(** What an f-string prints for a value that may be [None]. *)
Definition fmt (v : option string) : string :=
  match v with
  | Some s => s
  | None => "None"
  end.

Record BelvoService : Type := {
  base_url : option string;
  client_id : option string;
  client_secret : option string
}.

Definition __init__ (config : dict) : BelvoService :=
  {| base_url := get config "base_url";
     client_id := get config "client_id";
     client_secret := get config "client_secret" |}.

Definition generate_auth_token (self : BelvoService) : string :=
  Base64.decode
    (Base64.b64encode
       (Base64.encode (fmt (client_id self) ++ ":" ++ fmt (client_secret self)))).

Definition get_auth_header (self : BelvoService) : dict :=
  [ ("Authorization", "Basic " ++ generate_auth_token self) ].

End BelvoService.

(* ================================================================= *)
(** ** The pandas operations the extractor calls                      *)
(* ================================================================= *)

Module Pandas.

(** [datetime.date]: compared by year, then month, then day. *)
Record date : Type := mkdate { year : Z; month : Z; day : Z }.

(** Lexicographic comparison of pairs, as Python compares tuples. *)
Definition lex {A B : Type}
    (ca : A -> A -> comparison) (cb : B -> B -> comparison)
    (x y : A * B) : comparison :=
  match ca (fst x) (fst y) with
  | Eq => cb (snd x) (snd y)
  | c => c
  end.

(** What the sorting of keys relies on: the comparison is that of a
    strict total order. *)
Record OrderLaws {A : Type} (cmp : A -> A -> comparison) : Prop := {
  cmp_eq : forall a b, cmp a b = Eq -> a = b;
  cmp_refl : forall a, cmp a a = Eq;
  cmp_antisym : forall a b, cmp a b = CompOpp (cmp b a);
  cmp_trans : forall a b c, cmp a b = Lt -> cmp b c = Lt -> cmp a c = Lt
}.

Definition ymd (d : date) : Z * Z * Z := (year d, month d, day d).

Definition date_compare (a b : date) : comparison :=
  lex (lex Z.compare Z.compare) Z.compare (ymd a) (ymd b).

(** [a <= b], [a < b] and [a == b] on dates. *)
Definition date_leb (a b : date) : bool :=
  match date_compare a b with Gt => false | _ => true end.
Definition date_ltb (a b : date) : bool :=
  match date_compare a b with Lt => true | _ => false end.
Definition date_eqb (a b : date) : bool :=
  match date_compare a b with Eq => true | _ => false end.

(** The number type of the [total_amount] column ([float64] in pandas).
    The development is parametric in it: all it needs is the sum of a
    column, taken over the values in row order. *)
Class Number (A : Type) : Type := { sum : list A -> A }.

(** One row of [invoices.csv], with the columns the code reads by name
    and the remaining ones as [other]; [D] is the type of the
    [invoice_date] cell (a string as read from the file, a [date] once
    converted).  A file without one of these columns makes the code
    raise [KeyError]; such files are outside this type. *)
Module Row.
Record t (D A : Type) : Type := mk {
  type : string;
  invoice_date : D;
  invoice_type : string;
  total_amount : A;
  other : list (string * string)
}.
Arguments mk {D A}.
Arguments type {D A}.
Arguments invoice_date {D A}.
Arguments invoice_type {D A}.
Arguments total_amount {D A}.
Arguments other {D A}.
End Row.

(** A data frame is the list of its rows, in index order. *)
Definition DataFrame (D A : Type) : Type := list (Row.t D A).

(** One row of the grouped frame [extract] returns, under its final
    column names [date], [invoice_type], [total_amount]. *)
Module Daily.
Record t (A : Type) : Type := mk {
  date : Pandas.date;
  invoice_type : string;
  total_amount : A
}.
Arguments mk {A}.
Arguments date {A}.
Arguments invoice_type {A}.
Arguments total_amount {A}.
End Daily.

(** The key of a row of the grouped frame. *)
Definition daily_key {A : Type} (r : Daily.t A) : date * string :=
  (Daily.date r, Daily.invoice_type r).

(** The group key of [groupby(['invoice_date', 'invoice_type'])]. *)
Definition key : Type := date * string.

Definition key_compare : key -> key -> comparison :=
  lex date_compare String.compare.

Definition key_eqb (a b : key) : bool :=
  match key_compare a b with Eq => true | _ => false end.

Definition key_lt (a b : key) : Prop := key_compare a b = Lt.

Definition key_of {A : Type} (r : Row.t date A) : key :=
  (Row.invoice_date r, Row.invoice_type r).

(** The distinct keys in ascending order ([sort=True], the default). *)
Fixpoint insert_key (k : key) (l : list key) : list key :=
  match l with
  | [] => [k]
  | k' :: l' =>
      match key_compare k k' with
      | Lt => k :: l
      | Eq => l
      | Gt => k' :: insert_key k l'
      end
  end.

Definition group_keys {A : Type} (df : DataFrame date A) : list key :=
  fold_right insert_key [] (map key_of df).

(** The rows of one group, in index order. *)
Definition group_rows {A : Type} (df : DataFrame date A) (k : key)
  : DataFrame date A :=
  filter (fun r => key_eqb (key_of r) k) df.

(** [df.groupby(['invoice_date', 'invoice_type'],
                 as_index=False)['total_amount'].sum()],
    followed by the renaming of [invoice_date] to [date]. *)
Definition groupby_sum {A : Type} `{Number A} (df : DataFrame date A)
  : list (Daily.t A) :=
  map (fun k =>
         Daily.mk (fst k) (snd k)
                  (sum (map Row.total_amount (group_rows df k))))
      (group_keys df).

End Pandas.

(* ================================================================= *)
(** ** app/agents/invoices_extractor.py                               *)
(* ================================================================= *)

(** Modelled from the spec: the module
    [app/agents/models/invoice_type_input.py] is not among the sources.
    It is the closed set of categories a query filters on; its members
    are the two the callers name ([InvoiceType.INFLOW] and
    [InvoiceType.OUTFLOW] in [app/streamlit_app.py]), and [value] is the
    text the [type] column of the file holds for each. *)
Inductive InvoiceType : Type := INFLOW | OUTFLOW.

Definition value (t : InvoiceType) : string :=
  match t with
  | INFLOW => "INFLOW"
  | OUTFLOW => "OUTFLOW"
  end.

Module InvoicesExtractor.
Import Pandas.

Section Extractor.
Context {A : Type} `{Number A}.

(** [pd.to_datetime(s)] followed by [.date()]: the calendar date a
    string denotes, or the error raised when it denotes none. *)
Variable to_datetime : string -> Result date.

(** [pd.read_csv(path)]: the rows of the file, or the error raised
    when it cannot be read. *)
Variable read_csv : string -> Result (DataFrame string A).

Definition csv_path : string := "../data/invoices.csv".

(** Line 17: the whole [invoice_date] column is converted, and the
    conversion fails as soon as one cell does. *)
Fixpoint convert_dates (data : DataFrame string A)
  : Result (DataFrame date A) :=
  match data with
  | [] => Return []
  | r :: rest =>
      d <- to_datetime (Row.invoice_date r) ;;
      rest' <- convert_dates rest ;;
      Return (Row.mk (Row.type r) d (Row.invoice_type r)
                     (Row.total_amount r) (Row.other r) :: rest')
  end.

(** Line 19: the boolean mask of the selection. *)
Definition mask (lo hi : date) (invoice_type : InvoiceType)
    (r : Row.t date A) : bool :=
  date_leb lo (Row.invoice_date r)
  && date_leb (Row.invoice_date r) hi
  && String.eqb (Row.type r) (value invoice_type).

Definition _filter_data (data : DataFrame string A)
    (from_date to_date : string) (invoice_type : InvoiceType)
  : Result (DataFrame date A) :=
  data' <- convert_dates data ;;
  lo <- to_datetime from_date ;;
  hi <- to_datetime to_date ;;
  Return (filter (mask lo hi invoice_type) data').

Definition extract (from_date to_date : string)
    (invoice_type : InvoiceType) : Result (list (Daily.t A)) :=
  data <- read_csv csv_path ;;
  data <- _filter_data data from_date to_date invoice_type ;;
  Return (groupby_sum data).

Definition get_invoices (date : string) (invoice_type : InvoiceType)
  : Result (DataFrame Pandas.date A) :=
  data <- read_csv csv_path ;;
  data <- _filter_data data date date invoice_type ;;
  Return data.

(** The rows of one day and one category: what a range of one day
    selects (see [mask_one_day] below). *)
Definition on_day (d : date) (invoice_type : InvoiceType)
    (r : Row.t date A) : bool :=
  date_eqb (Row.invoice_date r) d
  && String.eqb (Row.type r) (value invoice_type).

(** The parts of [get_date_range] below: the earlier and the later of
    two dates, the rows of one category whatever their date, and the
    error for a category without rows. *)
Definition date_min (a b : date) : date := if date_leb a b then a else b.
Definition date_max (a b : date) : date := if date_leb a b then b else a.

Definition of_category (invoice_type : InvoiceType)
    (r : Row.t date A) : bool :=
  String.eqb (Row.type r) (value invoice_type).

Definition NoData : Exception := Raise "NoData" "no records".

(** Modelled from the spec: [get_date_range] is called by
    [app/streamlit_app.py] (line 47) and by the tests, but the class
    in [app/agents/invoices_extractor.py] does not define it.  The
    spec: [dateRange(category) -> (minDate, maxDate)] over all
    records of that category; fails with [NoData] if the category
    has zero records. *)
Definition get_date_range (invoice_type : InvoiceType)
  : Result (date * date) :=
  data <- read_csv csv_path ;;
  data <- convert_dates data ;;
  match map Row.invoice_date (filter (of_category invoice_type) data) with
  | [] => Raised NoData
  | d :: ds => Return (fold_left date_min ds d, fold_left date_max ds d)
  end.

End Extractor.
End InvoicesExtractor.

(* ================================================================= *)
(** ** app/agents/models/detection_output.py                          *)
(* ================================================================= *)

Module DetectionOutput.

(** [class Anomaly(BaseModel)]; with [use_enum_values] the
    [invoice_type] field holds the member's value, a string. *)
Record Anomaly (A : Type) : Type := mkAnomaly {
  date : string;
  total_amount : A;
  invoice_type : string;
  reason : string
}.
Arguments mkAnomaly {A}.
Arguments date {A}.
Arguments total_amount {A}.
Arguments invoice_type {A}.
Arguments reason {A}.

(** [class DetectionOutput(BaseModel)]. *)
Record t (A : Type) : Type := mk { anomalies : list (Anomaly A) }.
Arguments mk {A}.
Arguments anomalies {A}.

End DetectionOutput.

(* ================================================================= *)
(** ** app/agents/anomaly_detector.py                                 *)
(* ================================================================= *)

Module AnomalyDetector.
Import Pandas.

(** The text of [PROMPT] before and after the [{data}] field. *)
Definition PROMPT_before : string :=
  nl ++
  "    Detect anomalies in the total amount by day." ++ nl ++
  nl ++
  "    Anomaly definition: The total amount increase significantly in comparison to the previous period with data." ++ nl ++
  nl ++
  "    The input contains:" ++ nl ++
  "    - Date" ++ nl ++
  "    - Total amount" ++ nl ++
  "    - Invoice type (e.g. " ++ dq ++ "Egreso" ++ dq ++ ", "
    ++ dq ++ "Ingreso" ++ dq ++ ", " ++ dq ++ "NÃ³mina" ++ dq ++ ", "
    ++ dq ++ "Pago" ++ dq ++ ", " ++ dq ++ "Traslado" ++ dq ++ ")" ++ nl ++
  nl ++
  nl ++
  "    Data:" ++ nl ++
  "    ".

Definition PROMPT_after : string := nl ++ "    ".

(** [PROMPT.format(data=...)]. *)
Definition PROMPT_format (data : string) : string :=
  PROMPT_before ++ data ++ PROMPT_after.

Section Detector.
Context {A : Type}.

(** [DataFrame.to_markdown()]. *)
Variable to_markdown : list (Daily.t A) -> string.

(** The structured-output model behind [self.model]: what it answers
    to a prompt, or the error the call raises. *)
Variable model : string -> Result (DetectionOutput.t A).

(** A computation that may call the model; the state is the log of
    the prompts sent so far, one entry per invocation. *)
Definition M (B : Type) : Type := list string -> Result B * list string.

Definition invoke (prompt : string) : M (DetectionOutput.t A) :=
  fun log => (model prompt, (log ++ [prompt])%list).

Definition detect (data : list (Daily.t A)) : M (DetectionOutput.t A) :=
  let prompt := PROMPT_format (to_markdown data) in
  invoke prompt.

End Detector.
End AnomalyDetector.

(* ================================================================= *)
(** ** app/agents/financial_analysis_agent.py                         *)
(* ================================================================= *)

Module FinancialAnalysisAgent.
Import Pandas.

(** A tool-call request of the model: the tool's name, its arguments
    as a JSON object, and the identifier the answer must carry. *)
Record ToolCall : Type := mkToolCall {
  name : string;
  args : dict;
  id : string
}.

(** The messages of the transcript. *)
Inductive Message : Type :=
| HumanMessage (content : string)
| AIMessage (content : string) (tool_calls : list ToolCall)
| ToolMessage (content : string) (tool_call_id : string).

Definition content (m : Message) : string :=
  match m with
  | HumanMessage c => c
  | AIMessage c _ => c
  | ToolMessage c _ => c
  end.

(** [class State(TypedDict)]. *)
Record State : Type := mkState {
  messages : list Message;
  anomaly : string
}.

(** The [add_messages] reducer: a node's messages are appended. *)
Definition add_messages (state : State) (new : list Message) : State :=
  mkState (messages state ++ new)%list (anomaly state).

(** [messages[-1]], when there is one. *)
Definition last_message (state : State) : option Message :=
  last (map Some (messages state)) None.

(** The nodes of the graph; [END] is the terminal one. *)
Inductive Node : Type := chatbot_node | tools_node | END.

(** [InvoiceType(s)]: the member whose value is [s]. *)
Definition InvoiceType_of_value (s : string) : option InvoiceType :=
  if String.eqb s (value INFLOW) then Some INFLOW
  else if String.eqb s (value OUTFLOW) then Some OUTFLOW
  else None.

Definition GraphRecursionError : Exception :=
  Raise "GraphRecursionError" "Recursion limit reached without hitting a stop condition".
Definition IndexError : Exception :=
  Raise "IndexError" "list index out of range".
Definition AttributeError : Exception :=
  Raise "AttributeError" "object has no attribute 'tool_calls'".
Definition ValueError : Exception :=
  Raise "ValueError" "No AIMessage found in input".

Section Agent.
Context {A : Type} `{Number A}.

Variable to_datetime : string -> Result date.
Variable read_csv : string -> Result (DataFrame string A).

(** [df.to_json(orient="records", date_format="iso")]. *)
Variable to_json : DataFrame date A -> Result string.

(** The chat model with the tools bound: the content and the
    tool-call requests of its answer to a transcript, or the error
    the call raises. *)
Variable model : list Message -> Result (string * list ToolCall).

(** The text the prebuilt [ToolNode] answers to a request it cannot
    dispatch (unknown tool name, arguments that fail validation). *)
Variable tool_error : ToolCall -> string.

(** The number of node executions [graph.invoke] allows
    ([recursion_limit]; [run] passes no configuration of its own). *)
Variable recursion_limit : nat.

(** The tool: everything the body raises is caught and returned as
    text. *)
Definition extract_invoices (date : string) (invoice_type : InvoiceType)
  : string :=
  match
    df <- InvoicesExtractor.get_invoices to_datetime read_csv
            date invoice_type ;;
    to_json df
  with
  | Return json => json
  | Raised e => "Error extracting invoices: " ++ exc_str e
  end.

Definition chatbot (state : State) : Result State :=
  answer <- model (messages state) ;;
  Return (add_messages state [AIMessage (fst answer) (snd answer)]).

Definition should_continue (state : State) : Result Node :=
  match last_message state with
  | None => Raised IndexError
  | Some (AIMessage _ (_ :: _)) => Return tools_node
  | Some (AIMessage _ []) => Return END
  | Some _ => Raised AttributeError
  end.

(** [ToolNode]: one request, answered by one [ToolMessage]. *)
Definition run_tool (call : ToolCall) : Message :=
  ToolMessage
    (if String.eqb (name call) "extract_invoices" then
       match get (args call) "date",
             option_map InvoiceType_of_value
               (get (args call) "invoice_type")
       with
       | Some date, Some (Some invoice_type) =>
           extract_invoices date invoice_type
       | _, _ => tool_error call
       end
     else tool_error call)
    (id call).

(** [ToolNode]: the requests of the last message are run in order
    and their answers appended. *)
Definition tool_node (state : State) : Result State :=
  match last_message state with
  | Some (AIMessage _ calls) =>
      Return (add_messages state (map run_tool calls))
  | _ => Raised ValueError
  end.

(** A reasoner whose every answer carries at least one request. *)
Definition always_requests_tools : Prop :=
  forall transcript, exists c call calls,
    model transcript = Return (c, call :: calls).

(** The compiled graph of [_build_graph]: entry point [chatbot], a
    conditional edge from [chatbot] to [tools] or [END], an edge
    from [tools] back to [chatbot].  [fuel] is what is left of the
    recursion limit, [turns] counts the calls of the model. *)
Fixpoint graph (fuel : nat) (node : Node) (state : State) (turns : nat)
  : Result State * nat :=
  match node, fuel with
  | END, _ => (Return state, turns)
  | _, O => (Raised GraphRecursionError, turns)
  | chatbot_node, S fuel' =>
      match chatbot state with
      | Raised e => (Raised e, S turns)
      | Return state' =>
          match should_continue state' with
          | Raised e => (Raised e, S turns)
          | Return next => graph fuel' next state' (S turns)
          end
      end
  | tools_node, S fuel' =>
      match tool_node state with
      | Raised e => (Raised e, turns)
      | Return state' => graph fuel' chatbot_node state' turns
      end
  end.

(** [self.graph.invoke(input)]. *)
Definition invoke (input : State) : Result State * nat :=
  graph recursion_limit chatbot_node input 0.

Definition initial_message (anomaly_data invoices_type : string) : string :=
  "You are a financial analyst. You have access to tools to extract invoice data." ++ nl ++
  nl ++
  "Your task is to analyze the following anomaly:" ++ nl ++
  nl ++
  anomaly_data ++ nl ++
  nl ++
  "1. Use the extract_invoices with param type " ++ invoices_type
    ++ " to get the invoice data for the anomaly date" ++ nl ++
  "2. Analyze the data to understand why it's anomalous" ++ nl ++
  "3. Provide insights and recommendations" ++ nl ++
  nl ++
  "Please start by extracting the invoice data for the anomaly date.".

Definition run (anomaly_data invoices_type : string)
  : Result State * nat :=
  invoke (mkState [HumanMessage (initial_message anomaly_data invoices_type)]
                  anomaly_data).

(** What the caller shows: [summary['messages'][-1].content]. *)
Definition narrative (final_state : State) : option string :=
  option_map content (last_message final_state).

End Agent.
End FinancialAnalysisAgent.

(* ================================================================= *)
(** ** Concrete inputs for the examples                               *)
(* ================================================================= *)

Module Examples.
Import Pandas.

(** Amounts as rationals, summed left to right. *)
#[global] Instance Q_Number : Number Q :=
  {| sum := fun l => Qred (fold_left Qplus l 0%Q) |}.

Definition digit (c : ascii) : option Z :=
  let n := nat_of_ascii c in
  if (48 <=? n)%nat && (n <=? 57)%nat then Some (Z.of_nat (n - 48)) else None.

Fixpoint number (acc : Z) (s : list ascii) : option Z :=
  match s with
  | [] => Some acc
  | c :: s' =>
      match digit c with
      | Some d => number (10 * acc + d) s'
      | None => None
      end
  end.

Definition DateParseError (s : string) : Exception :=
  Raise "DateParseError" ("Unknown datetime string format, unable to parse: " ++ s).

(** A [to_datetime] for the examples: dates written [YYYY-MM-DD]. *)
Definition iso_date (s : string) : Result date :=
  match list_ascii_of_string s with
  | [y1; y2; y3; y4; s1; m1; m2; s2; d1; d2] =>
      if Ascii.eqb s1 "-" && Ascii.eqb s2 "-" then
        match number 0 [y1; y2; y3; y4], number 0 [m1; m2], number 0 [d1; d2] with
        | Some y, Some m, Some d =>
            if (1 <=? m)%Z && (m <=? 12)%Z && (1 <=? d)%Z && (d <=? 31)%Z
            then Return (mkdate y m d)
            else Raised (DateParseError s)
        | _, _, _ => Raised (DateParseError s)
        end
      else Raised (DateParseError s)
  | _ => Raised (DateParseError s)
  end.

Definition row (type invoice_date invoice_type : string) (total_amount : Q)
  : Row.t string Q :=
  Row.mk type invoice_date invoice_type total_amount [].

(** The five rows of the test fixture, and three more: a second
    category of inflow on 2024-01-06, and two payments on 2024-01-10. *)
Definition invoices : DataFrame string Q :=
  [ row "INFLOW" "2024-01-06" "Pago" 1000;
    row "INFLOW" "2024-01-27" "Traslado" 70721.51;
    row "OUTFLOW" "2024-01-16" "Egreso" 90190.51;
    row "OUTFLOW" "2024-01-15" "Pago" 2500;
    row "OUTFLOW" "2024-01-21" "Ingreso" 66821.84;
    row "INFLOW" "2024-01-06" "Traslado" 300;
    row "INFLOW" "2024-01-10" "Pago" 1000;
    row "INFLOW" "2024-01-10" "Pago" 2000 ].

Definition FileNotFoundError (path : string) : Exception :=
  Raise "FileNotFoundError" ("No such file or directory: " ++ path).

(** A file system that holds [invoices] at the path the code reads. *)
Definition read_csv (path : string) : Result (DataFrame string Q) :=
  if String.eqb path InvoicesExtractor.csv_path then Return invoices
  else Raised (FileNotFoundError path).

(** A file system whose file has a header and no row. *)
Definition empty_csv (path : string) : Result (DataFrame string Q) :=
  if String.eqb path InvoicesExtractor.csv_path then Return []
  else Raised (FileNotFoundError path).

(** A file system without the file. *)
Definition no_csv (path : string) : Result (DataFrame string Q) :=
  Raised (FileNotFoundError path).

Definition extract := InvoicesExtractor.extract iso_date read_csv.
Definition get_invoices := InvoicesExtractor.get_invoices iso_date read_csv.

(** A configuration of the Belvo client. *)
Definition example_config : dict :=
  [ ("base_url", "https://sandbox.belvo.com");
    ("client_id", "id"); ("client_secret", "pw") ].

(** Stand-ins for the two serialisations of a frame: one line per row. *)
Definition show_date (d : date) : string :=
  match d with
  | mkdate 2024 1 dd =>
      "2024-01-" ++ String (ascii_of_nat (48 + Z.to_nat (dd / 10)))
                      (String (ascii_of_nat (48 + Z.to_nat (dd mod 10)))
                              EmptyString)
  | _ => "another date"
  end.

Definition to_markdown (df : list (Daily.t Q)) : string :=
  String.concat nl
    (map (fun r => "| " ++ show_date (Daily.date r) ++ " | "
                     ++ Daily.invoice_type r ++ " |") df).

Definition to_json (df : DataFrame date Q) : Result string :=
  Return ("[" ++ String.concat ", "
                   (map (fun r => show_date (Row.invoice_date r) ++ " "
                                    ++ Row.invoice_type r) df) ++ "]").

(** The check the spec asks of the classifier, in its words: the
    (date, category) pair of an anomaly appears in the series it was
    shown. *)
Definition spec_pair_in_series (a : DetectionOutput.Anomaly Q)
    (series : list (Daily.t Q)) : bool :=
  match iso_date (DetectionOutput.date a) with
  | Return d =>
      existsb (fun r => date_eqb (Daily.date r) d
                        && String.eqb (Daily.invoice_type r)
                                      (DetectionOutput.invoice_type a))
              series
  | Raised _ => false
  end.

(** A series of one day, and a classifier that answers every prompt with
    an anomaly on a day that is not in it. *)
Definition one_day_series : list (Daily.t Q) :=
  [ Daily.mk (mkdate 2024 1 6) "Pago" 1000%Q ].

Definition made_up : DetectionOutput.Anomaly Q :=
  DetectionOutput.mkAnomaly "2031-12-25" 5%Q "Egreso" "made up".

Definition hallucinating_model (prompt : string)
  : Result (DetectionOutput.t Q) :=
  Return (DetectionOutput.mk [made_up]).

(** The request the agent is told to make, for one day of inflow. *)
Definition fetch (day : string) : FinancialAnalysisAgent.ToolCall :=
  FinancialAnalysisAgent.mkToolCall "extract_invoices"
    [ ("date", day); ("invoice_type", "INFLOW") ] "call_1".

(** A reasoner whose every turn requests the tool. *)
Definition adversarial_model (transcript : list FinancialAnalysisAgent.Message)
  : Result (string * list FinancialAnalysisAgent.ToolCall) :=
  Return ("", [fetch "2024-01-27"]).

(** A reasoner that requests the tool once and concludes when it sees
    the tool's answer. *)
Definition scripted_model (transcript : list FinancialAnalysisAgent.Message)
  : Result (string * list FinancialAnalysisAgent.ToolCall) :=
  match last (map Some transcript) None with
  | Some (FinancialAnalysisAgent.ToolMessage _ _) =>
      Return ("Analysis of the fetched invoices.", [])
  | _ => Return ("", [fetch "2024-01-27"])
  end.

Definition tool_error (call : FinancialAnalysisAgent.ToolCall) : string :=
  "Error: " ++ FinancialAnalysisAgent.name call ++ " is not a valid tool".

(** The transcript once the reasoner has made its request. *)
Definition requested : FinancialAnalysisAgent.State :=
  FinancialAnalysisAgent.mkState
    [ FinancialAnalysisAgent.HumanMessage "Analyze the anomaly of 2024-01-27.";
      FinancialAnalysisAgent.AIMessage "" [fetch "2024-01-27"] ]
    "2024-01-27".

(** The transcript once the tool has answered. *)
Definition answered : FinancialAnalysisAgent.State :=
  FinancialAnalysisAgent.add_messages requested
    [ FinancialAnalysisAgent.ToolMessage "[2024-01-27 Traslado]" "call_1" ].

(** The agent over the example file, and over a missing file. *)
Definition run model limit :=
  FinancialAnalysisAgent.run iso_date read_csv to_json model tool_error limit.
Definition run_without_file model limit :=
  FinancialAnalysisAgent.run iso_date no_csv to_json model tool_error limit.

End Examples.

From Stdlib Require DecimalString DecimalPos DecimalN.

(* ================================================================= *)
(** ** Vocabulary for the further properties                          *)
(* ================================================================= *)

Module Selection.
Import Pandas.

(** The records behind one row of the grouped frame: those of the
    category [ty] dated [d] whose [invoice_type] column reads [s]. *)
Definition behind {A : Type} (d : date) (s : string) (ty : InvoiceType)
    (x : Row.t date A) : bool :=
  date_eqb (Row.invoice_date x) d
  && String.eqb (Row.invoice_type x) s
  && String.eqb (Row.type x) (value ty).

(** A row of the grouped frame dated within [lo, hi]. *)
Definition within {A : Type} (lo hi : date) (r : Daily.t A) : bool :=
  date_leb lo (Daily.date r) && date_leb (Daily.date r) hi.

End Selection.

Module Missing.

(** The cell texts [pd.read_csv] reads as a missing value (its default
    [na_values]); a row whose group key is missing is left out by
    [groupby], so the properties of the groups are stated for frames
    whose [invoice_type] cells are none of these. *)
Definition na_values : list string :=
  [ ""; "#N/A"; "#N/A N/A"; "#NA"; "-1.#IND"; "-1.#QNAN"; "-NaN"; "-nan";
    "1.#IND"; "1.#QNAN"; "<NA>"; "N/A"; "NA"; "NULL"; "NaN"; "None";
    "n/a"; "nan"; "null" ].

Definition isna (cell : string) : bool :=
  existsb (String.eqb cell) na_values.

(** The grouping with the rows of a missing [invoice_type] left out. *)
Definition groupby_sum_dropna {A : Type} `{Pandas.Number A}
    (df : Pandas.DataFrame Pandas.date A) : list (Pandas.Daily.t A) :=
  Pandas.groupby_sum
    (filter (fun x => negb (isna (Pandas.Row.invoice_type x))) df).

End Missing.

Module Text.

(** [c in s]. *)
Fixpoint has_char (c : ascii) (s : string) : bool :=
  match s with
  | EmptyString => false
  | String d s' => Ascii.eqb c d || has_char c s'
  end.

(** A character a base64 text may hold: one of the alphabet, or the
    padding. *)
Definition b64_char (c : ascii) : bool :=
  match Base64.dec c with
  | Some _ => true
  | None => Ascii.eqb c Base64.pad
  end.

End Text.

Module Transcript.
Import FinancialAnalysisAgent.

(** The turns of the reasoner in a piece of transcript. *)
Definition is_ai (m : Message) : bool :=
  match m with
  | AIMessage _ _ => true
  | _ => false
  end.

Definition count_ai (l : list Message) : nat :=
  List.length (filter is_ai l).

End Transcript.

(* ================================================================= *)
(** ** services/ofda_service.py, services/employment_records_mx_service.py *)
(* ================================================================= *)

(** [str(n)] of a non-negative integer: its decimal digits. *)
Definition str (n : N) : string := DecimalString.NilEmpty.string_of_uint (N.to_uint n).

(** One page of a listing as the API answers it: the records of the
    page and the address of the next page, [None] for JSON's null. *)
Record Page (R : Type) : Type := mkPage {
  results : list R;
  next : option string
}.
Arguments mkPage {R}.
Arguments results {R}.
Arguments next {R}.

Module OFDAService.

(** The address [get_transactions] requests. *)
Definition endpoint (link_id : string) (page page_size : N) : string :=
  "/api/transactions/?page=" ++ str page ++ "&link=" ++ link_id
  ++ "&page_size=" ++ str page_size.

Definition url (self : BelvoService.BelvoService) (link_id : string)
    (page page_size : N) : string :=
  BelvoService.fmt (BelvoService.base_url self)
  ++ endpoint link_id page page_size.

Section Requests.
Context {J : Type}.

(** [requests.get(url, headers=...)] followed by [.json()]: the decoded
    body, or the error raised. *)
Variable requests_get : string -> dict -> Result J.

Definition get_transactions (self : BelvoService.BelvoService)
    (link_id : string) (page page_size : N) : Result J :=
  requests_get (url self link_id page page_size)
               (BelvoService.get_auth_header self).

End Requests.
End OFDAService.

Module EmploymentRecordsMXService.

Definition endpoint (link_id : string) (page page_size : N) : string :=
  "/api/employment-records/?page=" ++ str page ++ "&link=" ++ link_id
  ++ "&page_size=" ++ str page_size.

Definition details_endpoint (record_id : string) : string :=
  "/api/employment-records/" ++ record_id ++ "/".

Definition url (self : BelvoService.BelvoService) (link_id : string)
    (page page_size : N) : string :=
  BelvoService.fmt (BelvoService.base_url self)
  ++ endpoint link_id page page_size.

Section Requests.
Context {J : Type}.
Variable requests_get : string -> dict -> Result J.

Definition get_employment_records (self : BelvoService.BelvoService)
    (link_id : string) (page page_size : N) : Result J :=
  requests_get (url self link_id page page_size)
               (BelvoService.get_auth_header self).

Definition get_employment_records_details (self : BelvoService.BelvoService)
    (record_id : string) : Result J :=
  requests_get (BelvoService.fmt (BelvoService.base_url self)
                ++ details_endpoint record_id)
               (BelvoService.get_auth_header self).

End Requests.
End EmploymentRecordsMXService.

(* ================================================================= *)
(** ** scripts/etl_transactions.py                                    *)
(* ================================================================= *)

Module Etl.

(** [\d], on the ASCII digits. *)
Definition is_digit (c : ascii) : bool :=
  let n := nat_of_ascii c in (48 <=? n)%nat && (n <=? 57)%nat.

(** The longest run of digits a text starts with ([\d*], greedy). *)
Fixpoint digits (s : string) : string :=
  match s with
  | EmptyString => EmptyString
  | String c s' => if is_digit c then String c (digits s') else EmptyString
  end.

(** [int(s)] on a text of digits. *)
Definition int (s : string) : option N :=
  option_map N.of_uint (DecimalString.NilEmpty.uint_of_string s).

(** What is left of [s] after the literal [p], when [s] starts with it. *)
Fixpoint strip_prefix (p s : string) : option string :=
  match p with
  | EmptyString => Some s
  | String a p' =>
      match s with
      | EmptyString => None
      | String b s' => if Ascii.eqb a b then strip_prefix p' s' else None
      end
  end.

(** The pattern [page=(\d+)] matched at the start of [s]: its group. *)
Definition match_here (s : string) : option string :=
  match strip_prefix "page=" s with
  | Some rest =>
      match digits rest with
      | EmptyString => None
      | ds => Some ds
      end
  | None => None
  end.

(** [re.search(r"page=(\d+)", s)]: the group of the leftmost match. *)
Fixpoint search (s : string) : option string :=
  match match_here s with
  | Some ds => Some ds
  | None =>
      match s with
      | EmptyString => None
      | String _ s' => search s'
      end
  end.

(** [get_page(url)]; without a match the function returns [None]. *)
Definition get_page (url : string) : option N :=
  match search url with
  | Some ds => int ds
  | None => None
  end.

Section Script.
Context {R : Type}.
Variable requests_get : string -> dict -> Result (Page R).
Variable ofda_service : BelvoService.BelvoService.
Variable link_id : string.

(** Line 40: the page to ask next. *)
Definition next_page (transactions : Page R) : option N :=
  match next transactions with
  | None => None
  | Some EmptyString => None
  | Some url => get_page url
  end.

(** The [while page:] loop, lines 37 to 40: [None] when [fuel] rounds do
    not finish it, otherwise the list collected or the error raised. *)
Fixpoint loop (fuel : nat) (page : option N) (all_transactions : list R)
  : option (Result (list R)) :=
  match page with
  | None | Some 0%N => Some (Return all_transactions)
  | Some page =>
      match fuel with
      | O => None
      | S fuel' =>
          match OFDAService.get_transactions requests_get ofda_service
                  link_id page 100 with
          | Raised e => Some (Raised e)
          | Return transactions =>
              loop fuel' (next_page transactions)
                   (all_transactions ++ results transactions)%list
          end
      end
  end.

(** Lines 32 to 40. *)
Definition collect (fuel : nat) : option (Result (list R)) :=
  loop fuel (Some 1%N) [].

(** The pages the loop goes through from [page] on, one answer each:
    every answer names the page of the next one, the last names none. *)
Inductive crawl : option N -> list (Page R) -> Prop :=
| crawl_none : crawl None []
| crawl_zero : crawl (Some 0%N) []
| crawl_step (page : N) (transactions : Page R) (rest : list (Page R)) :
    page <> 0%N ->
    OFDAService.get_transactions requests_get ofda_service link_id page 100
    = Return transactions ->
    crawl (next_page transactions) rest ->
    crawl (Some page) (transactions :: rest).

End Script.
End Etl.

(** Lines 43 to 45: the frame built from the records and the removal
    of its columns with missing values. *)
Module Frame.

(** A record of the API, a JSON object: the keys in order, [None] for
    a null value. *)
Definition record : Type := list (string * option string).

Fixpoint lookup (r : record) (key : string) : option (option string) :=
  match r with
  | [] => None
  | (k, v) :: r' => if String.eqb k key then Some v else lookup r' key
  end.

(** The cell of a record under a column: missing when the record has
    no such key, or holds null under it. *)
Definition cell (column : string) (r : record) : option string :=
  match lookup r column with
  | Some v => v
  | None => None
  end.

Definition mem (k : string) (l : list string) : bool :=
  existsb (String.eqb k) l.

(** The keys not seen yet, appended in their order. *)
Fixpoint add_keys (keys seen : list string) : list string :=
  match keys with
  | [] => seen
  | k :: keys' =>
      add_keys keys' (if mem k seen then seen else (seen ++ [k])%list)
  end.

(** The columns of [pd.DataFrame(records)]: the keys of the records in
    the order of their first appearance. *)
Definition columns (records : list record) : list string :=
  fold_left (fun seen r => add_keys (map fst r) seen) records [].

(** A column: its name and its cells, one per record. *)
Definition column : Type := string * list (option string).

Definition DataFrame (records : list record) : list column :=
  map (fun c => (c, map (cell c) records)) (columns records).

Definition isna (v : option string) : bool :=
  match v with
  | None => true
  | Some _ => false
  end.

(** [df.dropna(axis=1, how="any")]. *)
Definition dropna (df : list column) : list column :=
  filter (fun col => negb (existsb isna (snd col))) df.

(** What is written to the file. *)
Definition export (records : list record) : list column :=
  dropna (DataFrame records).

End Frame.

(* ================================================================= *)
(** ** app/agents/models/invoice_type_output.py                       *)
(* ================================================================= *)

Module InvoiceTypeOutput.

Inductive t : Type := EGRESO | INGRESO | NOMINA | PAGO | TRASLADO.

Definition value (m : t) : string :=
  match m with
  | EGRESO => "Egreso"
  | INGRESO => "Ingreso"
  | NOMINA => "Nómina"
  | PAGO => "Pago"
  | TRASLADO => "Traslado"
  end.

End InvoiceTypeOutput.

(* ================================================================= *)
(** ** app/streamlit_app.py: the choice of an anomaly                 *)
(* ================================================================= *)

Module Streamlit.

(** [s.split(sep)] for a separator that is not empty: [skip] counts the
    characters of a separator still to pass, [piece] is the piece read
    so far. *)
Fixpoint split_from (sep s : string) (skip : nat) (piece : string)
  : list string :=
  match s with
  | EmptyString => [piece]
  | String c s' =>
      match skip with
      | S skip' => split_from sep s' skip' piece
      | O =>
          if String.prefix sep s
          then piece :: split_from sep s' (String.length sep - 1) EmptyString
          else split_from sep s' 0 (piece ++ String c EmptyString)
      end
  end.

Definition split (sep s : string) : list string :=
  split_from sep s 0 EmptyString.

(** Line 132: the entry of the selector for one anomaly, from its date
    written [%Y-%m-%d] and its invoice type. *)
Definition label (date invoice_type : string) : string :=
  date ++ " | " ++ invoice_type.

Definition UnpackError : Exception :=
  Raise "ValueError" "wrong number of values to unpack".

(** Line 138: [sel_date, sel_type = selected_anomaly.split(" | ")]. *)
Definition selected (selected_anomaly : string) : Result (string * string) :=
  match split " | " selected_anomaly with
  | [sel_date; sel_type] => Return (sel_date, sel_type)
  | _ => Raised UnpackError
  end.

End Streamlit.

(* ================================================================= *)
(** ** More concrete inputs                                           *)
(* ================================================================= *)

Module MoreExamples.
Import Pandas.

(** The example file once its dates are converted. *)
Definition parsed_invoices : DataFrame date Q :=
  [ Row.mk "INFLOW" (mkdate 2024 1 6) "Pago" 1000%Q [];
    Row.mk "INFLOW" (mkdate 2024 1 27) "Traslado" 70721.51%Q [];
    Row.mk "OUTFLOW" (mkdate 2024 1 16) "Egreso" 90190.51%Q [];
    Row.mk "OUTFLOW" (mkdate 2024 1 15) "Pago" 2500%Q [];
    Row.mk "OUTFLOW" (mkdate 2024 1 21) "Ingreso" 66821.84%Q [];
    Row.mk "INFLOW" (mkdate 2024 1 6) "Traslado" 300%Q [];
    Row.mk "INFLOW" (mkdate 2024 1 10) "Pago" 1000%Q [];
    Row.mk "INFLOW" (mkdate 2024 1 10) "Pago" 2000%Q [] ].

(** The example file with one more row, an outflow whose date cell does
    not denote a date. *)
Definition broken_invoices : DataFrame string Q :=
  (Examples.invoices
   ++ [ Examples.row "OUTFLOW" "not a date" "Pago" 10%Q ])%list.

Definition read_broken_csv (path : string) : Result (DataFrame string Q) :=
  if String.eqb path InvoicesExtractor.csv_path then Return broken_invoices
  else Raised (Examples.FileNotFoundError path).

(** A client of the sandbox. *)
Definition sandbox : BelvoService.BelvoService :=
  BelvoService.__init__ Examples.example_config.

(** Two invoices as the API lists them; the second has no payroll. *)
Definition two_records : list Frame.record :=
  [ [ ("id", Some "67b1"); ("invoice_date", Some "2024-01-06");
      ("payroll", Some "{}") ];
    [ ("id", Some "c570"); ("invoice_date", Some "2024-01-27");
      ("payroll", None) ] ].

Definition NotFound : Exception := Raise "HTTPError" "404 Not Found".

(** A server with three pages of transactions, each naming the next. *)
Definition three_pages (url : string) (headers : dict)
  : Result (Page string) :=
  match Etl.get_page url with
  | Some 1%N =>
      Return (mkPage ["t1"; "t2"]
                (Some "https://sandbox.belvo.com/api/transactions/?link=x&page=2"))
  | Some 2%N =>
      Return (mkPage ["t3"; "t4"]
                (Some "https://sandbox.belvo.com/api/transactions/?link=x&page=3"))
  | Some 3%N => Return (mkPage ["t5"] None)
  | _ => Raised NotFound
  end.

(** A server that names its next page by offset. *)
Definition by_offset (url : string) (headers : dict) : Result (Page string) :=
  match Etl.get_page url with
  | Some 1%N =>
      Return (mkPage ["t1"; "t2"]
                (Some "https://sandbox.belvo.com/api/transactions/?offset=2"))
  | _ => Return (mkPage ["t3"] None)
  end.

(** The example configuration with its entries in another order. *)
Definition reordered_config : dict :=
  [ ("client_secret", "pw"); ("client_id", "id") ].

(** A configuration without credentials. *)
Definition url_only_config : dict :=
  [ ("base_url", "https://sandbox.belvo.com") ].

(** A reasoner whose service is down. *)
Definition APIError : Exception := Raise "APIError" "rate limit exceeded".

Definition failing_model (transcript : list FinancialAnalysisAgent.Message)
  : Result (string * list FinancialAnalysisAgent.ToolCall) :=
  Raised APIError.

End MoreExamples.
(* ================================================================= *)
(** * Properties                                                      *)
(* ================================================================= *)

(** ** Base64 *)

Section Base64Facts.
Import Base64.

Lemma dec_enc_nat (k : nat) :
  (k < 64)%nat -> dec (enc (N.of_nat k)) = Some (N.of_nat k).
Proof.
  intros Hk.
  do 64 (destruct k as [|k]; [reflexivity|]).
  lia.
Qed.

Lemma dec_enc (n : N) : (n < 64)%N -> dec (enc n) = Some n.
Proof.
  intros Hn.
  rewrite <- (N2Nat.id n).
  apply dec_enc_nat. lia.
Qed.

Lemma dec_pad : dec pad = None.
Proof. reflexivity. Qed.

Lemma val_bound (c : ascii) : (val c < 256)%N.
Proof. apply N_ascii_bounded. Qed.

Lemma byte_of_val (c : ascii) : byte_of (val c) = c.
Proof. apply ascii_N_embedding. Qed.

Local Ltac euclid :=
  Z.to_euclidean_division_equations; lia.

Lemma dec4_enc3 (a b c : ascii) :
  let n := (val a * 65536 + val b * 256 + val c)%N in
  dec4 (n / 262144) ((n / 4096) mod 64) ((n / 64) mod 64) (n mod 64)
  = [a; b; c].
Proof.
  intros n. unfold dec4.
  pose proof (val_bound a) as Ha.
  pose proof (val_bound b) as Hb.
  pose proof (val_bound c) as Hc.
  assert (E : (n / 262144 * 262144 + (n / 4096) mod 64 * 4096
               + (n / 64) mod 64 * 64 + n mod 64 = n)%N).
  { subst n. zify. euclid. }
  rewrite E.
  assert (E1 : (n / 65536 = val a)%N) by (subst n; zify; euclid).
  assert (E2 : ((n / 256) mod 256 = val b)%N) by (subst n; zify; euclid).
  assert (E3 : (n mod 256 = val c)%N) by (subst n; zify; euclid).
  rewrite E1, E2, E3, !byte_of_val. reflexivity.
Qed.

Lemma dec3_enc2 (a b : ascii) :
  let n := ((val a * 256 + val b) * 4)%N in
  dec3 (n / 4096) ((n / 64) mod 64) (n mod 64) = [a; b].
Proof.
  intros n. unfold dec3.
  pose proof (val_bound a) as Ha.
  pose proof (val_bound b) as Hb.
  assert (E : (n / 4096 * 4096 + (n / 64) mod 64 * 64 + n mod 64 = n)%N)
    by (subst n; zify; euclid).
  rewrite E.
  assert (E1 : (n / 4 / 256 = val a)%N) by (subst n; zify; euclid).
  assert (E2 : ((n / 4) mod 256 = val b)%N) by (subst n; zify; euclid).
  rewrite E1, E2, !byte_of_val. reflexivity.
Qed.

Lemma dec2_enc1 (a : ascii) :
  let n := (val a * 16)%N in
  dec2 (n / 64) (n mod 64) = [a].
Proof.
  intros n. unfold dec2.
  pose proof (val_bound a) as Ha.
  assert (E : ((n / 64 * 64 + n mod 64) / 16 = val a)%N)
    by (subst n; zify; euclid).
  rewrite E, byte_of_val. reflexivity.
Qed.

(** The unfolding equations of [b64decode], with [dec] kept folded. *)
Lemma b64decode_full c1 c2 c3 c4 rest s1 s2 s3 s4 :
  dec c1 = Some s1 -> dec c2 = Some s2 ->
  dec c3 = Some s3 -> dec c4 = Some s4 ->
  b64decode (c1 :: c2 :: c3 :: c4 :: rest)
  = option_map (app (dec4 s1 s2 s3 s4)) (b64decode rest).
Proof.
  intros H1 H2 H3 H4. cbn [b64decode]. rewrite H1, H2, H3, H4. reflexivity.
Qed.

Lemma b64decode_pad1 c1 c2 c3 s1 s2 s3 :
  dec c1 = Some s1 -> dec c2 = Some s2 -> dec c3 = Some s3 ->
  b64decode [c1; c2; c3; pad] = Some (dec3 s1 s2 s3).
Proof.
  intros H1 H2 H3. cbn [b64decode]. rewrite H1, H2, H3, dec_pad. reflexivity.
Qed.

Lemma b64decode_pad2 c1 c2 s1 s2 :
  dec c1 = Some s1 -> dec c2 = Some s2 ->
  b64decode [c1; c2; pad; pad] = Some (dec2 s1 s2).
Proof.
  intros H1 H2. cbn [b64decode]. rewrite H1, H2, dec_pad. reflexivity.
Qed.

(** Induction over a byte string three bytes at a time. *)
Lemma bytes_ind3 (P : bytes -> Prop) :
  P [] -> (forall a, P [a]) -> (forall a b, P [a; b]) ->
  (forall a b c rest, P rest -> P (a :: b :: c :: rest)) ->
  forall s, P s.
Proof.
  intros H0 H1 H2 H3.
  assert (H : forall s, P s /\ (forall a, P (a :: s))
                        /\ (forall a b, P (a :: b :: s))).
  { induction s as [|x s [IH0 [IH1 IH2]]].
    - repeat split; auto.
    - repeat split; auto. }
  intros s. apply H.
Qed.

Lemma b64decode_b64encode (s : bytes) : b64decode (b64encode s) = Some s.
Proof.
  induction s as [|a|a b|a b c rest IH] using bytes_ind3.
  - reflexivity.
  - cbn [b64encode]. unfold enc1.
    pose proof (val_bound a).
    erewrite b64decode_pad2 by (apply dec_enc; zify; euclid).
    now rewrite dec2_enc1.
  - cbn [b64encode]. unfold enc2.
    pose proof (val_bound a). pose proof (val_bound b).
    erewrite b64decode_pad1 by (apply dec_enc; zify; euclid).
    now rewrite dec3_enc2.
  - cbn [b64encode]. unfold enc3. cbn [app].
    pose proof (val_bound a). pose proof (val_bound b).
    pose proof (val_bound c).
    erewrite b64decode_full by (apply dec_enc; zify; euclid).
    rewrite dec4_enc3, IH. reflexivity.
Qed.

Lemma decode_encode (s : string) : decode (encode s) = s.
Proof. apply string_of_list_ascii_of_string. Qed.

Lemma encode_decode (b : bytes) : encode (decode b) = b.
Proof. apply list_ascii_of_string_of_list_ascii. Qed.
End Base64Facts.

(** ** services/belvo_service.py *)

(** C10: for a configuration that holds the strings [client_id] and
    [client_secret], decoding the token from base64 gives back exactly
    the text [client_id:client_secret], and the [Authorization] header is
    the text [Basic ] followed by the token. *)
Theorem generate_auth_token_roundtrip
    (config : dict) (cid secret : string) :
  get config "client_id" = Some cid ->
  get config "client_secret" = Some secret ->
  let self := BelvoService.__init__ config in
  option_map Base64.decode
    (Base64.b64decode (Base64.encode (BelvoService.generate_auth_token self)))
  = Some (cid ++ ":" ++ secret)
  /\ BelvoService.get_auth_header self
     = [ ("Authorization", "Basic " ++ BelvoService.generate_auth_token self) ]
  /\ get (BelvoService.get_auth_header self) "Authorization"
     = Some ("Basic " ++ BelvoService.generate_auth_token self).
Proof.
  intros Hid Hsecret self.
  unfold BelvoService.generate_auth_token, self, BelvoService.__init__.
  cbn [BelvoService.client_id BelvoService.client_secret].
  rewrite Hid, Hsecret. cbn [BelvoService.fmt].
  rewrite encode_decode, b64decode_b64encode.
  cbn [option_map]. rewrite decode_encode.
  repeat split.
Qed.

Lemma generate_auth_token_roundtrip_witness :
  option_map Base64.decode
    (Base64.b64decode
       (Base64.encode
          (BelvoService.generate_auth_token
             (BelvoService.__init__ Examples.example_config))))
  = Some "id:pw"
  /\ BelvoService.get_auth_header (BelvoService.__init__ Examples.example_config)
     = [ ("Authorization", "Basic aWQ6cHc=") ]
  /\ get
       (BelvoService.get_auth_header (BelvoService.__init__ Examples.example_config))
       "Authorization"
     = Some "Basic aWQ6cHc=".
Proof.
  exact (generate_auth_token_roundtrip Examples.example_config "id" "pw" eq_refl eq_refl).
Defined.

(** ** Order on dates and group keys *)

Section OrderFacts.
Import Pandas.

Lemma Z_laws : OrderLaws Z.compare.
Proof.
  split.
  - apply Z.compare_eq.
  - apply Z.compare_refl.
  - intros a b. apply Z.compare_antisym.
  - intros a b c Hab Hbc. rewrite Z.compare_lt_iff in *. lia.
Qed.

Lemma ascii_laws : OrderLaws Ascii.compare.
Proof.
  split.
  - apply Ascii.compare_eq_iff.
  - intros a. apply N.compare_refl.
  - apply Ascii.compare_antisym.
  - intros a b c. unfold Ascii.compare.
    rewrite !N.compare_lt_iff. lia.
Qed.

Lemma string_laws : OrderLaws String.compare.
Proof.
  split.
  - apply String.compare_eq_iff.
  - induction a as [|c a IH]; cbn; [reflexivity|].
    now rewrite (cmp_refl _ ascii_laws).
  - apply String.compare_antisym.
  - induction a as [|x a IH]; intros [|y b] [|z c]; cbn;
      try discriminate; try reflexivity.
    destruct (Ascii.compare x y) eqn:Exy; try discriminate;
      destruct (Ascii.compare y z) eqn:Eyz; try discriminate; intros Hab Hbc.
    + apply (cmp_eq _ ascii_laws) in Exy, Eyz. subst.
      rewrite (cmp_refl _ ascii_laws). eauto.
    + apply (cmp_eq _ ascii_laws) in Exy. subst. now rewrite Eyz.
    + apply (cmp_eq _ ascii_laws) in Eyz. subst. now rewrite Exy.
    + now rewrite (cmp_trans _ ascii_laws _ _ _ Exy Eyz).
Qed.

Lemma lex_laws {A B : Type} (ca : A -> A -> comparison)
    (cb : B -> B -> comparison) :
  OrderLaws ca -> OrderLaws cb -> OrderLaws (lex ca cb).
Proof.
  intros La Lb. split.
  - intros [a1 b1] [a2 b2]. unfold lex. cbn.
    destruct (ca a1 a2) eqn:Ea; try discriminate.
    intros Eb. apply (cmp_eq _ La) in Ea. apply (cmp_eq _ Lb) in Eb.
    congruence.
  - intros [a b]. unfold lex. cbn.
    now rewrite (cmp_refl _ La), (cmp_refl _ Lb).
  - intros [a1 b1] [a2 b2]. unfold lex. cbn.
    rewrite (cmp_antisym _ La a1 a2).
    destruct (ca a2 a1); cbn; try reflexivity.
    apply (cmp_antisym _ Lb).
  - intros [a1 b1] [a2 b2] [a3 b3]. unfold lex. cbn.
    destruct (ca a1 a2) eqn:E12; try discriminate;
      destruct (ca a2 a3) eqn:E23; try discriminate; intros H12 H23.
    + apply (cmp_eq _ La) in E12, E23. subst.
      rewrite (cmp_refl _ La). exact (cmp_trans _ Lb _ _ _ H12 H23).
    + apply (cmp_eq _ La) in E12. subst. now rewrite E23.
    + apply (cmp_eq _ La) in E23. subst. now rewrite E12.
    + now rewrite (cmp_trans _ La _ _ _ E12 E23).
Qed.

Lemma date_laws : OrderLaws date_compare.
Proof.
  pose proof (lex_laws _ _ (lex_laws _ _ Z_laws Z_laws) Z_laws) as L.
  unfold date_compare. split.
  - intros [y1 m1 d1] [y2 m2 d2] E. apply (cmp_eq _ L) in E.
    unfold ymd in E. cbn in E. congruence.
  - intros a. apply (cmp_refl _ L).
  - intros a b. apply (cmp_antisym _ L).
  - intros a b c. apply (cmp_trans _ L).
Qed.

Lemma key_laws : OrderLaws key_compare.
Proof. apply lex_laws; [apply date_laws | apply string_laws]. Qed.

Lemma key_eqb_eq (a b : key) : key_eqb a b = true <-> a = b.
Proof.
  unfold key_eqb. split.
  - destruct (key_compare a b) eqn:E; try discriminate.
    intros _. now apply (cmp_eq _ key_laws).
  - intros ->. now rewrite (cmp_refl _ key_laws).
Qed.

Lemma date_leb_refl (d : date) : date_leb d d = true.
Proof. unfold date_leb. now rewrite (cmp_refl _ date_laws). Qed.

Lemma date_leb_ltb (a b : date) : date_leb a b = negb (date_ltb b a).
Proof.
  unfold date_leb, date_ltb. rewrite (cmp_antisym _ date_laws a b).
  now destruct (date_compare b a).
Qed.

Lemma date_leb_trans (a b c : date) :
  date_leb a b = true -> date_leb b c = true -> date_leb a c = true.
Proof.
  unfold date_leb.
  destruct (date_compare a b) eqn:Eab; try discriminate;
    destruct (date_compare b c) eqn:Ebc; try discriminate; intros _ _.
  - apply (cmp_eq _ date_laws) in Eab, Ebc. subst.
    now rewrite (cmp_refl _ date_laws).
  - apply (cmp_eq _ date_laws) in Eab. subst. now rewrite Ebc.
  - apply (cmp_eq _ date_laws) in Ebc. subst. now rewrite Eab.
  - now rewrite (cmp_trans _ date_laws _ _ _ Eab Ebc).
Qed.

Lemma date_leb_antisym (a b : date) :
  date_leb a b = true -> date_leb b a = true -> a = b.
Proof.
  unfold date_leb. rewrite (cmp_antisym _ date_laws b a).
  destruct (date_compare a b) eqn:E; cbn; try discriminate; intros _ _.
  now apply (cmp_eq _ date_laws).
Qed.

Lemma date_leb_total (a b : date) :
  date_leb a b = true \/ date_leb b a = true.
Proof.
  unfold date_leb. rewrite (cmp_antisym _ date_laws b a).
  destruct (date_compare a b); cbn; auto.
Qed.
End OrderFacts.

(** ** Grouping *)

Section GroupFacts.
Import Pandas.

Lemma insert_key_In (k k' : key) (l : list key) :
  In k' (insert_key k l) <-> k' = k \/ In k' l.
Proof.
  induction l as [|x l IH]; cbn.
  - intuition.
  - destruct (key_compare k x) eqn:E; cbn.
    + apply (cmp_eq _ key_laws) in E. subst. intuition.
    + intuition.
    + rewrite IH. intuition.
Qed.

Lemma insert_key_sorted (k : key) (l : list key) :
  StronglySorted key_lt l -> StronglySorted key_lt (insert_key k l).
Proof.
  induction 1 as [|x l Hs IH Hx]; cbn.
  - repeat constructor.
  - destruct (key_compare k x) eqn:E.
    + now constructor.
    + constructor; [now constructor|].
      constructor; [exact E|].
      rewrite Forall_forall in *. intros y Hy.
      exact (cmp_trans _ key_laws _ _ _ E (Hx y Hy)).
    + constructor; [exact IH|].
      rewrite Forall_forall in *. intros y Hy.
      apply insert_key_In in Hy. destruct Hy as [->|Hy]; [|now apply Hx].
      unfold key_lt. rewrite (cmp_antisym _ key_laws), E. reflexivity.
Qed.

Lemma group_keys_sorted {A : Type} (df : DataFrame date A) :
  StronglySorted key_lt (group_keys df).
Proof.
  unfold group_keys. induction (map key_of df) as [|k ks IH]; cbn.
  - constructor.
  - now apply insert_key_sorted.
Qed.

Lemma group_keys_In {A : Type} (df : DataFrame date A) (k : key) :
  In k (group_keys df) <-> In k (map key_of df).
Proof.
  unfold group_keys. induction (map key_of df) as [|x ks IH]; cbn.
  - tauto.
  - rewrite insert_key_In, IH. intuition.
Qed.

Lemma groupby_sum_keys {A : Type} `{Number A} (df : DataFrame date A) :
  map daily_key (groupby_sum df) = group_keys df.
Proof.
  unfold groupby_sum. rewrite map_map. cbn.
  rewrite <- (map_id (group_keys df)) at 2.
  apply map_ext. now intros [d t].
Qed.

Lemma key_lt_irrefl (k : key) : ~ key_lt k k.
Proof. unfold key_lt. now rewrite (cmp_refl _ key_laws). Qed.

Lemma sorted_NoDup (l : list key) : StronglySorted key_lt l -> NoDup l.
Proof.
  induction 1 as [|x l Hs IH Hx]; constructor; [|exact IH].
  intros Hin. rewrite Forall_forall in Hx.
  exact (key_lt_irrefl x (Hx x Hin)).
Qed.

(** A smaller key has an earlier or equal date. *)
Lemma key_lt_date (a b : key) :
  key_lt a b -> date_leb (fst a) (fst b) = true.
Proof.
  unfold key_lt, key_compare, lex, date_leb.
  destruct (date_compare (fst a) (fst b)); intros; try reflexivity.
  discriminate.
Qed.

Lemma StronglySorted_map {X Y : Type} (f : X -> Y)
    (R : Y -> Y -> Prop) (l : list X) :
  StronglySorted R (map f l) <-> StronglySorted (fun a b => R (f a) (f b)) l.
Proof.
  induction l as [|x l IH]; cbn.
  - split; constructor.
  - split; intros Hs; inversion Hs; subst; constructor.
    + now apply IH.
    + rewrite Forall_forall in *. intros y Hy. auto using in_map.
    + now apply IH.
    + rewrite Forall_forall in *. intros y Hy.
      apply in_map_iff in Hy. destruct Hy as [z [<- Hz]]. auto.
Qed.

Lemma StronglySorted_weaken {X : Type} (R S : X -> X -> Prop) (l : list X) :
  (forall a b, R a b -> S a b) -> StronglySorted R l -> StronglySorted S l.
Proof.
  intros HRS. induction 1 as [|x l Hs IH Hx]; constructor; auto.
  eapply Forall_impl; [|exact Hx]. auto.
Qed.
End GroupFacts.

(** ** app/agents/invoices_extractor.py *)

Section ExtractorFacts.
Import Pandas InvoicesExtractor.
Context {A : Type} `{Number A}.
Variable to_datetime : string -> Result date.
Variable read_csv : string -> Result (DataFrame string A).

Lemma _filter_data_returns (data : DataFrame string A)
    (parsed : DataFrame date A) (from_date to_date : string)
    (lo hi : date) (ty : InvoiceType) :
  convert_dates to_datetime data = Return parsed ->
  to_datetime from_date = Return lo ->
  to_datetime to_date = Return hi ->
  _filter_data to_datetime data from_date to_date ty
  = Return (filter (mask lo hi ty) parsed).
Proof.
  intros Hp Hlo Hhi. unfold _filter_data.
  rewrite Hp. cbn [bind]. rewrite Hlo. cbn [bind]. rewrite Hhi. reflexivity.
Qed.

Lemma extract_returns (data : DataFrame string A)
    (parsed : DataFrame date A) (from_date to_date : string)
    (lo hi : date) (ty : InvoiceType) :
  read_csv csv_path = Return data ->
  convert_dates to_datetime data = Return parsed ->
  to_datetime from_date = Return lo ->
  to_datetime to_date = Return hi ->
  extract to_datetime read_csv from_date to_date ty
  = Return (groupby_sum (filter (mask lo hi ty) parsed)).
Proof.
  intros Hr Hp Hlo Hhi. unfold extract. rewrite Hr. cbn [bind].
  now rewrite (_filter_data_returns _ _ _ _ _ _ _ Hp Hlo Hhi).
Qed.

Lemma get_invoices_returns (data : DataFrame string A)
    (parsed : DataFrame date A) (day : string) (d : date)
    (ty : InvoiceType) :
  read_csv csv_path = Return data ->
  convert_dates to_datetime data = Return parsed ->
  to_datetime day = Return d ->
  get_invoices to_datetime read_csv day ty
  = Return (filter (mask d d ty) parsed).
Proof.
  intros Hr Hp Hd. unfold get_invoices. rewrite Hr. cbn [bind].
  now rewrite (_filter_data_returns _ _ _ _ _ _ _ Hp Hd Hd).
Qed.

(** An inverted range selects nothing. *)
Lemma mask_inverted (lo hi : date) (ty : InvoiceType) (r : Row.t date A) :
  date_ltb hi lo = true -> mask lo hi ty r = false.
Proof.
  intros Hlt. unfold mask.
  destruct (date_leb lo (Row.invoice_date r)) eqn:E1; [|reflexivity].
  destruct (date_leb (Row.invoice_date r) hi) eqn:E2; [|reflexivity].
  pose proof (date_leb_trans _ _ _ E1 E2) as E.
  rewrite date_leb_ltb, Hlt in E. discriminate.
Qed.

Lemma filter_inverted (lo hi : date) (ty : InvoiceType)
    (df : DataFrame date A) :
  date_ltb hi lo = true -> filter (mask lo hi ty) df = [].
Proof.
  intros Hlt. induction df as [|r df IH]; cbn; [reflexivity|].
  now rewrite mask_inverted.
Qed.

(** A one-day range selects the rows of that day. *)
Lemma mask_one_day (d : date) (ty : InvoiceType) (r : Row.t date A) :
  mask d d ty r = on_day d ty r.
Proof.
  unfold mask, on_day. f_equal.
  unfold date_eqb.
  rewrite (date_leb_ltb d (Row.invoice_date r)). unfold date_leb, date_ltb.
  now destruct (date_compare (Row.invoice_date r) d).
Qed.

Lemma filter_one_day (d : date) (ty : InvoiceType) (df : DataFrame date A) :
  filter (mask d d ty) df = filter (on_day d ty) df.
Proof. apply filter_ext. intros r. apply mask_one_day. Qed.

Lemma on_day_true (d : date) (ty : InvoiceType) (r : Row.t date A) :
  on_day d ty r = true <-> Row.invoice_date r = d /\ Row.type r = value ty.
Proof.
  unfold on_day, date_eqb. rewrite andb_true_iff, String.eqb_eq.
  split; intros [Hd Ht]; split; auto.
  - destruct (date_compare (Row.invoice_date r) d) eqn:E; try discriminate.
    now apply (cmp_eq _ date_laws).
  - subst. now rewrite (cmp_refl _ date_laws).
Qed.

Lemma date_min_spec (ds : list date) (d : date) :
  let m := fold_left date_min ds d in
  In m (d :: ds) /\ forall x, In x (d :: ds) -> date_leb m x = true.
Proof.
  revert d. induction ds as [|y ds IH]; intros d; cbn [fold_left].
  - split; [now left|]. intros x [<-|[]]. apply date_leb_refl.
  - destruct (IH (date_min d y)) as [Hin Hle]. split.
    + destruct Hin as [E|Hin]; [|now right; right].
      rewrite <- E. unfold date_min. destruct (date_leb d y); cbn; auto.
    + intros x Hx.
      assert (Hm : date_leb (fold_left date_min ds (date_min d y))
                            (date_min d y) = true) by (apply Hle; now left).
      destruct Hx as [<-|[<-|Hx]].
      * eapply date_leb_trans; [exact Hm|]. unfold date_min.
        destruct (date_leb d y) eqn:E; [apply date_leb_refl|].
        destruct (date_leb_total d y) as [E'|E']; congruence.
      * eapply date_leb_trans; [exact Hm|]. unfold date_min.
        destruct (date_leb d y) eqn:E; [exact E|apply date_leb_refl].
      * apply Hle. now right.
Qed.

Lemma date_max_spec (ds : list date) (d : date) :
  let m := fold_left date_max ds d in
  In m (d :: ds) /\ forall x, In x (d :: ds) -> date_leb x m = true.
Proof.
  revert d. induction ds as [|y ds IH]; intros d; cbn [fold_left].
  - split; [now left|]. intros x [<-|[]]. apply date_leb_refl.
  - destruct (IH (date_max d y)) as [Hin Hle]. split.
    + destruct Hin as [E|Hin]; [|now right; right].
      rewrite <- E. unfold date_max. destruct (date_leb d y); cbn; auto.
    + intros x Hx.
      assert (Hm : date_leb (date_max d y)
                     (fold_left date_max ds (date_max d y)) = true)
        by (apply Hle; now left).
      destruct Hx as [<-|[<-|Hx]].
      * eapply date_leb_trans; [|exact Hm]. unfold date_max.
        destruct (date_leb d y) eqn:E; [exact E|apply date_leb_refl].
      * eapply date_leb_trans; [|exact Hm]. unfold date_max.
        destruct (date_leb d y) eqn:E; [apply date_leb_refl|].
        destruct (date_leb_total d y) as [E'|E']; congruence.
      * apply Hle. now right.
Qed.
End ExtractorFacts.

Import Pandas.

(** C4 (amended): a range query whose [from_date] is after its [to_date]
    does not fail: once the file is read and the dates are parsed, no row
    passes the selection and the result is the empty frame. *)
Theorem extract_inverted_range_is_empty {A : Type} `{Number A}
    (to_datetime : string -> Result date)
    (read_csv : string -> Result (DataFrame string A))
    (data : DataFrame string A) (parsed : DataFrame date A)
    (from_date to_date : string) (lo hi : date) (ty : InvoiceType) :
  read_csv InvoicesExtractor.csv_path = Return data ->
  InvoicesExtractor.convert_dates to_datetime data = Return parsed ->
  to_datetime from_date = Return lo ->
  to_datetime to_date = Return hi ->
  date_ltb hi lo = true ->
  InvoicesExtractor.extract to_datetime read_csv from_date to_date ty
  = Return [].
Proof.
  intros Hr Hp Hlo Hhi Hlt.
  rewrite (extract_returns _ _ _ _ _ _ _ _ _ Hr Hp Hlo Hhi).
  now rewrite filter_inverted.
Qed.

Lemma extract_inverted_range_is_empty_witness :
  Examples.extract "2024-01-31" "2024-01-15" OUTFLOW = Return [].
Proof.
  unfold Examples.extract.
  eapply (extract_inverted_range_is_empty Examples.iso_date Examples.read_csv).
  - reflexivity.
  - vm_compute. reflexivity.
  - vm_compute. reflexivity.
  - vm_compute. reflexivity.
  - vm_compute. reflexivity.
Defined.

(** C4, as stated, fails: the scenario of the spec ([fromDate=2024-02-01],
    [toDate=2024-01-01]) returns normally, with an empty frame. *)
Lemma extract_inverted_range_no_error :
  Examples.extract "2024-02-01" "2024-01-01" INFLOW = Return []
  /\ Examples.iso_date "2024-02-01" = Return (mkdate 2024 2 1)
  /\ Examples.iso_date "2024-01-01" = Return (mkdate 2024 1 1)
  /\ date_ltb (mkdate 2024 1 1) (mkdate 2024 2 1) = true.
Proof. vm_compute. repeat split. Qed.

(** C5 (amended): once the file is read and the dates are parsed, the
    range query returns a frame sorted in strictly ascending order of
    the pair (date, [invoice_type] column); so its dates never decrease
    and it holds at most one row per pair, not per date. *)
Theorem extract_sorted_by_key {A : Type} `{Number A}
    (to_datetime : string -> Result date)
    (read_csv : string -> Result (DataFrame string A))
    (data : DataFrame string A) (parsed : DataFrame date A)
    (from_date to_date : string) (lo hi : date) (ty : InvoiceType) :
  read_csv InvoicesExtractor.csv_path = Return data ->
  InvoicesExtractor.convert_dates to_datetime data = Return parsed ->
  to_datetime from_date = Return lo ->
  to_datetime to_date = Return hi ->
  exists rows,
    InvoicesExtractor.extract to_datetime read_csv from_date to_date ty
    = Return rows
    /\ StronglySorted (fun a b => key_lt (daily_key a) (daily_key b)) rows
    /\ StronglySorted
         (fun a b => date_leb (Daily.date a) (Daily.date b) = true) rows
    /\ NoDup (map daily_key rows).
Proof.
  intros Hr Hp Hlo Hhi.
  eexists. split; [exact (extract_returns _ _ _ _ _ _ _ _ _ Hr Hp Hlo Hhi)|].
  set (df := filter _ parsed).
  assert (Hs : StronglySorted key_lt (map daily_key (groupby_sum df))).
  { rewrite groupby_sum_keys. apply group_keys_sorted. }
  pose proof (proj1 (StronglySorted_map daily_key key_lt _) Hs) as Hk.
  split; [exact Hk|]. split.
  - eapply StronglySorted_weaken; [|exact Hk].
    intros a b Hab. exact (key_lt_date _ _ Hab).
  - exact (sorted_NoDup _ Hs).
Qed.

Lemma extract_sorted_by_key_witness :
  exists rows,
    Examples.extract "2024-01-01" "2024-01-31" OUTFLOW = Return rows
    /\ StronglySorted (fun a b => key_lt (daily_key a) (daily_key b)) rows
    /\ StronglySorted
         (fun a b => date_leb (Daily.date a) (Daily.date b) = true) rows
    /\ NoDup (map daily_key rows).
Proof.
  unfold Examples.extract.
  eapply (extract_sorted_by_key Examples.iso_date Examples.read_csv).
  - reflexivity.
  - vm_compute. reflexivity.
  - vm_compute. reflexivity.
  - vm_compute. reflexivity.
Defined.

(** C5, as stated, fails: the inflow of January 2024 comes back with two
    rows dated 2024-01-06, one per value of the [invoice_type] column. *)
Lemma extract_two_rows_for_one_date :
  Examples.extract "2024-01-01" "2024-01-31" INFLOW
  = Return [ Daily.mk (mkdate 2024 1 6) "Pago" 1000%Q;
             Daily.mk (mkdate 2024 1 6) "Traslado" 300%Q;
             Daily.mk (mkdate 2024 1 10) "Pago" 3000%Q;
             Daily.mk (mkdate 2024 1 27) "Traslado" 70721.51%Q ]
  /\ ~ NoDup [ mkdate 2024 1 6; mkdate 2024 1 6;
               mkdate 2024 1 10; mkdate 2024 1 27 ].
Proof.
  split.
  - vm_compute. reflexivity.
  - intros Hn. inversion Hn as [|x l Hnotin _]. apply Hnotin. now left.
Qed.

(** C8 (amended): the single-day query returns the invoice records of
    that day and category themselves, one row per record in file order
    and with the amounts as stored; it neither groups nor sums.  The range
    query over [day, day] is the grouping of exactly these rows. *)
Theorem get_invoices_returns_raw_rows {A : Type} `{Number A}
    (to_datetime : string -> Result date)
    (read_csv : string -> Result (DataFrame string A))
    (data : DataFrame string A) (parsed : DataFrame date A)
    (day : string) (d : date) (ty : InvoiceType) :
  read_csv InvoicesExtractor.csv_path = Return data ->
  InvoicesExtractor.convert_dates to_datetime data = Return parsed ->
  to_datetime day = Return d ->
  let rows := filter (InvoicesExtractor.on_day d ty) parsed in
  InvoicesExtractor.get_invoices to_datetime read_csv day ty = Return rows
  /\ (forall r, In r rows <->
                In r parsed /\ Row.invoice_date r = d /\ Row.type r = value ty)
  /\ InvoicesExtractor.extract to_datetime read_csv day day ty
     = Return (groupby_sum rows).
Proof.
  intros Hr Hp Hd rows. split; [|split].
  - rewrite (get_invoices_returns _ _ _ _ _ _ _ Hr Hp Hd).
    now rewrite filter_one_day.
  - intros r. unfold rows. rewrite filter_In, on_day_true. tauto.
  - rewrite (extract_returns _ _ _ _ _ _ _ _ _ Hr Hp Hd Hd).
    now rewrite filter_one_day.
Qed.

Lemma get_invoices_returns_raw_rows_witness :
  let rows := [ Row.mk "OUTFLOW" (mkdate 2024 1 16) "Egreso" 90190.51%Q [] ] in
  Examples.get_invoices "2024-01-16" OUTFLOW = Return rows
  /\ (forall r, In r rows <->
                In r [ Row.mk "INFLOW" (mkdate 2024 1 6) "Pago" 1000%Q [];
                       Row.mk "INFLOW" (mkdate 2024 1 27) "Traslado" 70721.51%Q [];
                       Row.mk "OUTFLOW" (mkdate 2024 1 16) "Egreso" 90190.51%Q [];
                       Row.mk "OUTFLOW" (mkdate 2024 1 15) "Pago" 2500%Q [];
                       Row.mk "OUTFLOW" (mkdate 2024 1 21) "Ingreso" 66821.84%Q [];
                       Row.mk "INFLOW" (mkdate 2024 1 6) "Traslado" 300%Q [];
                       Row.mk "INFLOW" (mkdate 2024 1 10) "Pago" 1000%Q [];
                       Row.mk "INFLOW" (mkdate 2024 1 10) "Pago" 2000%Q [] ]
                /\ Row.invoice_date r = mkdate 2024 1 16
                /\ Row.type r = value OUTFLOW)
  /\ Examples.extract "2024-01-16" "2024-01-16" OUTFLOW
     = Return (groupby_sum rows).
Proof.
  exact (get_invoices_returns_raw_rows Examples.iso_date Examples.read_csv
           Examples.invoices _ "2024-01-16" (mkdate 2024 1 16) OUTFLOW
           eq_refl eq_refl eq_refl).
Defined.

(** C8, as stated, fails: for 2024-01-10 the single-day query returns two
    rows with the same date and category, carrying 1000 and 2000, where
    the aggregate of that day is one row carrying 3000. *)
Lemma get_invoices_not_aggregated :
  Examples.get_invoices "2024-01-10" INFLOW
  = Return [ Row.mk "INFLOW" (mkdate 2024 1 10) "Pago" 1000%Q [];
             Row.mk "INFLOW" (mkdate 2024 1 10) "Pago" 2000%Q [] ]
  /\ Examples.extract "2024-01-10" "2024-01-10" INFLOW
     = Return [ Daily.mk (mkdate 2024 1 10) "Pago" 3000%Q ].
Proof. split; vm_compute; reflexivity. Qed.

(** C9: [get_date_range] fails with [NoData] for a category without
    records, and otherwise returns the earliest and the latest date among
    the records of the category. *)
Theorem get_date_range_min_max {A : Type}
    (to_datetime : string -> Result date)
    (read_csv : string -> Result (DataFrame string A))
    (data : DataFrame string A) (parsed : DataFrame date A)
    (ty : InvoiceType) :
  read_csv InvoicesExtractor.csv_path = Return data ->
  InvoicesExtractor.convert_dates to_datetime data = Return parsed ->
  let dates :=
    map Row.invoice_date (filter (InvoicesExtractor.of_category ty) parsed) in
  (dates = [] ->
   InvoicesExtractor.get_date_range to_datetime read_csv ty
   = Raised InvoicesExtractor.NoData)
  /\ (dates <> [] ->
      exists lo hi,
        InvoicesExtractor.get_date_range to_datetime read_csv ty
        = Return (lo, hi)
        /\ In lo dates /\ In hi dates
        /\ forall d, In d dates ->
                     date_leb lo d = true /\ date_leb d hi = true).
Proof.
  intros Hr Hp dates.
  unfold InvoicesExtractor.get_date_range. rewrite Hr. cbn [bind].
  rewrite Hp. cbn [bind]. fold dates.
  destruct dates as [|d ds]; split; intros Hd; try congruence.
  destruct (date_min_spec ds d) as [Hmin Hle].
  destruct (date_max_spec ds d) as [Hmax Hge].
  exists (fold_left InvoicesExtractor.date_min ds d),
         (fold_left InvoicesExtractor.date_max ds d).
  repeat split; auto.
Qed.

(** On a file without rows the call fails with [NoData]. *)
Example get_date_range_no_data :
  InvoicesExtractor.get_date_range Examples.iso_date Examples.empty_csv INFLOW
  = Raised InvoicesExtractor.NoData.
Proof. reflexivity. Qed.

(** On the example file the outflow runs from 2024-01-15 to 2024-01-21. *)
Example get_date_range_outflow :
  InvoicesExtractor.get_date_range Examples.iso_date Examples.read_csv OUTFLOW
  = Return (mkdate 2024 1 15, mkdate 2024 1 21).
Proof. vm_compute. reflexivity. Qed.

Lemma get_date_range_min_max_witness :
  let dates := [ mkdate 2024 1 16; mkdate 2024 1 15; mkdate 2024 1 21 ] in
  (dates = [] ->
   InvoicesExtractor.get_date_range Examples.iso_date Examples.read_csv OUTFLOW
   = Raised InvoicesExtractor.NoData)
  /\ (dates <> [] ->
      exists lo hi,
        InvoicesExtractor.get_date_range Examples.iso_date Examples.read_csv
          OUTFLOW
        = Return (lo, hi)
        /\ In lo dates /\ In hi dates
        /\ forall d, In d dates ->
                     date_leb lo d = true /\ date_leb d hi = true).
Proof.
  exact (get_date_range_min_max Examples.iso_date Examples.read_csv
           Examples.invoices _ OUTFLOW eq_refl eq_refl).
Defined.


(** ** app/agents/anomaly_detector.py *)

(** C2 (amended): for every input series and every classifier response,
    [detect] hands back the classifier's response as it is: the emitted
    anomalies are exactly the ones the classifier produced, nothing is
    checked against the series, and [detect] raises only what the
    classifier raises. *)
Theorem detect_returns_model_answer {A : Type}
    (to_markdown : list (Daily.t A) -> string)
    (model : string -> Result (DetectionOutput.t A))
    (data : list (Daily.t A)) (log : list string) :
  let prompt := AnomalyDetector.PROMPT_format (to_markdown data) in
  fst (AnomalyDetector.detect to_markdown model data log) = model prompt
  /\ (forall out a,
        model prompt = Return out ->
        In a (DetectionOutput.anomalies out) ->
        exists out',
          fst (AnomalyDetector.detect to_markdown model data log) = Return out'
          /\ In a (DetectionOutput.anomalies out')).
Proof.
  intros prompt. split; [reflexivity|].
  intros out a Hout Ha. exists out. split; [|exact Ha].
  unfold AnomalyDetector.detect, AnomalyDetector.invoke. cbn [fst].
  exact Hout.
Qed.

Lemma detect_returns_model_answer_witness :
  exists out',
    fst (AnomalyDetector.detect Examples.to_markdown
           Examples.hallucinating_model Examples.one_day_series [])
    = Return out'
    /\ In Examples.made_up (DetectionOutput.anomalies out').
Proof.
  exact (proj2 (detect_returns_model_answer Examples.to_markdown
                  Examples.hallucinating_model Examples.one_day_series [])
               (DetectionOutput.mk [Examples.made_up]) Examples.made_up
               eq_refl (or_introl eq_refl)).
Defined.

(** C2, as stated, fails: shown a series of one day, a classifier that
    answers with an anomaly on another day and category gets its answer
    returned by [detect], although the pair is not in the series. *)
Lemma detect_returns_hallucinated_anomaly :
  fst (AnomalyDetector.detect Examples.to_markdown Examples.hallucinating_model
         Examples.one_day_series [])
  = Return (DetectionOutput.mk [Examples.made_up])
  /\ Examples.spec_pair_in_series Examples.made_up Examples.one_day_series
     = false.
Proof. split; reflexivity. Qed.

(** C3 (amended): given an empty input series, [detect] invokes the
    reasoning capability exactly once, with the prompt built from the
    empty table, and returns what it answers. *)
Theorem detect_empty_invokes_model_once {A : Type}
    (to_markdown : list (Daily.t A) -> string)
    (model : string -> Result (DetectionOutput.t A))
    (log : list string) :
  let prompt := AnomalyDetector.PROMPT_format (to_markdown []) in
  AnomalyDetector.detect to_markdown model [] log
  = (model prompt, (log ++ [prompt])%list)
  /\ List.length (snd (AnomalyDetector.detect to_markdown model [] log))
     = S (List.length log).
Proof.
  intros prompt. split; [reflexivity|].
  unfold AnomalyDetector.detect, AnomalyDetector.invoke. cbn [snd].
  rewrite List.length_app. cbn. lia.
Qed.

(** C3, as stated, fails: on the empty series the reasoning capability is
    invoked once, and its answer, here one anomaly, is the result. *)
Lemma detect_empty_invokes_model :
  List.length (snd (AnomalyDetector.detect Examples.to_markdown
                 Examples.hallucinating_model [] []))
  = 1%nat
  /\ fst (AnomalyDetector.detect Examples.to_markdown
            Examples.hallucinating_model [] [])
     = Return (DetectionOutput.mk [Examples.made_up]).
Proof. split; reflexivity. Qed.

(** ** app/agents/financial_analysis_agent.py *)

Section AgentFacts.
Import FinancialAnalysisAgent.
Context {A : Type} `{Number A}.
Variable to_datetime : string -> Result date.
Variable read_csv : string -> Result (DataFrame string A).
Variable to_json : DataFrame date A -> Result string.
Variable model : list Message -> Result (string * list ToolCall).
Variable tool_error : ToolCall -> string.

Abbreviation graph := (graph to_datetime read_csv to_json model tool_error).
Abbreviation tool_node := (tool_node to_datetime read_csv to_json tool_error).
Abbreviation run_tool := (run_tool to_datetime read_csv to_json tool_error).

Lemma last_message_add (state : State) (new : list Message) (m : Message) :
  last_message (add_messages state (new ++ [m])) = Some m.
Proof.
  unfold last_message, add_messages. cbn [messages].
  rewrite app_assoc, map_app. cbn [map]. apply last_last.
Qed.

Lemma last_message_add1 (state : State) (m : Message) :
  last_message (add_messages state [m]) = Some m.
Proof. apply (last_message_add state [] m). Qed.

Lemma chatbot_returns (state : State) (c : string) (calls : list ToolCall) :
  model (messages state) = Return (c, calls) ->
  chatbot model state = Return (add_messages state [AIMessage c calls]).
Proof. intros Hm. unfold chatbot. now rewrite Hm. Qed.

Lemma chatbot_inv (state state' : State) :
  chatbot model state = Return state' ->
  exists c calls,
    model (messages state) = Return (c, calls)
    /\ state' = add_messages state [AIMessage c calls].
Proof.
  unfold chatbot. destruct (model (messages state)) as [[c calls]|e]; cbn.
  - intros [= <-]. now exists c, calls.
  - discriminate.
Qed.

Lemma should_continue_after (state : State) (c : string)
    (calls : list ToolCall) :
  should_continue (add_messages state [AIMessage c calls])
  = Return (match calls with [] => END | _ :: _ => tools_node end).
Proof.
  unfold should_continue. rewrite last_message_add1. now destruct calls.
Qed.

Lemma tool_node_returns (state : State) (c : string) (calls : list ToolCall) :
  last_message state = Some (AIMessage c calls) ->
  tool_node state = Return (add_messages state (map run_tool calls)).
Proof. intros Hl. unfold FinancialAnalysisAgent.tool_node. now rewrite Hl. Qed.

Lemma should_continue_not_chatbot (state : State) :
  should_continue state <> Return chatbot_node.
Proof.
  unfold should_continue.
  destruct (last_message state) as [[c|c [|call calls]|c i]|]; discriminate.
Qed.

(** The model is called at most once every second step. *)
Lemma graph_turns_bound (fuel : nat) (node : Node) (state : State)
    (turns : nat) :
  2 * snd (graph fuel node state turns)
  <= 2 * turns + match node with
                 | chatbot_node => fuel + 1
                 | tools_node => fuel
                 | END => 0
                 end.
Proof.
  revert node state turns.
  induction fuel as [|fuel IH]; intros node state turns.
  - destruct node; cbn [FinancialAnalysisAgent.graph snd]; lia.
  - destruct node; cbn [FinancialAnalysisAgent.graph].
    + destruct (chatbot model state) as [state'|e]; [|cbn [snd]; lia].
      destruct (should_continue state') as [next|e] eqn:Hn; [|cbn [snd]; lia].
      specialize (IH next state' (S turns)).
      destruct next; [now apply should_continue_not_chatbot in Hn|lia|lia].
    + destruct (FinancialAnalysisAgent.tool_node _ _ _ _ state) as [state'|e];
        [|cbn [snd]; lia].
      specialize (IH chatbot_node state' turns). cbv beta iota in IH. lia.
    + cbn [snd]. lia.
Qed.

(** A run that returns ends on an answer of the model without requests. *)
Lemma graph_returns_final_answer (fuel : nat) (node : Node)
    (state final : State) (turns turns' : nat) :
  node <> END ->
  graph fuel node state turns = (Return final, turns') ->
  exists prev c,
    model prev = Return (c, [])
    /\ messages final = (prev ++ [AIMessage c []])%list.
Proof.
  revert node state turns.
  induction fuel as [|fuel IH]; intros node state turns Hnode.
  - destruct node; cbn; try discriminate. congruence.
  - destruct node; cbn [FinancialAnalysisAgent.graph]; [| |congruence].
    + destruct (chatbot model state) as [state'|e] eqn:Hc; [|discriminate].
      apply chatbot_inv in Hc. destruct Hc as [c [calls [Hm ->]]].
      rewrite should_continue_after. destruct calls as [|call calls].
      * destruct fuel; cbn; intros [= <- _]; exists (messages state), c;
          now split.
      * apply IH. discriminate.
    + destruct (FinancialAnalysisAgent.tool_node _ _ _ _ state) as [state'|e];
        [|discriminate].
      apply IH. discriminate.
Qed.

Lemma graph_never_done (fuel : nat) (node : Node) (state : State)
    (turns : nat) :
  always_requests_tools model ->
  match node with
  | chatbot_node => True
  | tools_node => exists c calls, last_message state = Some (AIMessage c calls)
  | END => False
  end ->
  fst (graph fuel node state turns) = Raised GraphRecursionError.
Proof.
  intros Hadv. revert node state turns.
  induction fuel as [|fuel IH]; intros node state turns Hnode.
  - destruct node; cbn; tauto.
  - destruct node; cbn [FinancialAnalysisAgent.graph]; [| |tauto].
    + destruct (Hadv (messages state)) as [c [call [calls Hm]]].
      rewrite (chatbot_returns _ _ _ Hm), should_continue_after.
      apply IH. exists c, (call :: calls). apply last_message_add1.
    + destruct Hnode as [c [calls Hl]].
      rewrite (tool_node_returns _ _ _ Hl). now apply IH.
Qed.
End AgentFacts.

Import FinancialAnalysisAgent.

Lemma InvoiceType_of_value_value (ty : InvoiceType) :
  InvoiceType_of_value (value ty) = Some ty.
Proof. now destruct ty. Qed.

Lemma adversarial_always_requests_tools :
  always_requests_tools Examples.adversarial_model.
Proof.
  intros transcript. exists "", (Examples.fetch "2024-01-27"), [].
  reflexivity.
Qed.

(** C1 (amended): the agent configures no cap on the reasoning turns and
    has no truncated narrative.  A run is bounded by the step limit [L]
    of the graph runtime alone: for every reasoner it makes at most
    [(L + 1) / 2] reasoning turns, and with a reasoner whose every turn
    requests tool calls it ends by raising [GraphRecursionError]; it
    does not reach [END] and returns no narrative. *)
Theorem run_bounded_by_recursion_limit {A : Type} `{Number A}
    (to_datetime : string -> Result date)
    (read_csv : string -> Result (DataFrame string A))
    (to_json : DataFrame date A -> Result string)
    (model : list Message -> Result (string * list ToolCall))
    (tool_error : ToolCall -> string)
    (recursion_limit : nat) (anomaly_data invoices_type : string) :
  let r := run to_datetime read_csv to_json model tool_error recursion_limit
               anomaly_data invoices_type in
  (2 * snd r <= recursion_limit + 1)%nat
  /\ (always_requests_tools model -> fst r = Raised GraphRecursionError).
Proof.
  intros r. unfold r, run, invoke. split.
  - pose proof (graph_turns_bound to_datetime read_csv to_json model tool_error
                  recursion_limit chatbot_node
                  (mkState [HumanMessage (initial_message anomaly_data
                                            invoices_type)] anomaly_data) 0)
      as Hb.
    cbv beta iota in Hb. lia.
  - intros Hadv. now apply graph_never_done.
Qed.

Lemma run_bounded_by_recursion_limit_witness :
  (2 * snd (Examples.run Examples.adversarial_model 25 "2024-01-27" "INFLOW")
   <= 25 + 1)%nat
  /\ fst (Examples.run Examples.adversarial_model 25 "2024-01-27" "INFLOW")
     = Raised GraphRecursionError.
Proof.
  destruct (run_bounded_by_recursion_limit Examples.iso_date Examples.read_csv
              Examples.to_json Examples.adversarial_model Examples.tool_error
              25 "2024-01-27" "INFLOW") as [Hb Hr].
  split; [exact Hb|].
  exact (Hr adversarial_always_requests_tools).
Defined.

(** C1, as stated, fails: with a reasoner whose every turn requests the
    tool, a run under a limit of 25 steps makes 13 reasoning turns and
    then raises; whatever the limit, it ends with that error and not in
    [END] with a narrative. *)
Lemma run_adversarial_raises :
  Examples.run Examples.adversarial_model 25 "2024-01-27" "INFLOW"
  = (Raised GraphRecursionError, 13%nat)
  /\ forall limit,
       fst (Examples.run Examples.adversarial_model limit "2024-01-27" "INFLOW")
       = Raised GraphRecursionError.
Proof.
  split; [vm_compute; reflexivity|].
  intros limit. unfold Examples.run, run, invoke.
  apply graph_never_done; [exact adversarial_always_requests_tools|exact I].
Qed.



(** A whole run of the scripted reasoner: one request, one answer of the
    tool, and the second turn is the narrative. *)
Example run_scripted :
  exists final,
    Examples.run Examples.scripted_model 25 "2024-01-27" "INFLOW"
    = (Return final, 2%nat)
    /\ narrative final = Some "Analysis of the fetched invoices."
    /\ List.length (messages final) = 4%nat.
Proof. eexists. split; [vm_compute; reflexivity|]. split; reflexivity. Qed.

(* ================================================================= *)
(** * Further properties                                              *)
(* ================================================================= *)

(** ** app/agents/invoices_extractor.py: what the frames hold *)

Section ExtractorContents.
Import Pandas InvoicesExtractor.
Context {A : Type} `{Number A}.
Variable to_datetime : string -> Result date.
Variable read_csv : string -> Result (DataFrame string A).

(** One cell that does not convert makes the conversion of the column
    fail, with the error of the first such cell. *)
Lemma convert_dates_fails (data : DataFrame string A) (r : Row.t string A)
    (e : Exception) :
  In r data ->
  to_datetime (Row.invoice_date r) = Raised e ->
  exists r' e',
    In r' data
    /\ to_datetime (Row.invoice_date r') = Raised e'
    /\ convert_dates to_datetime data = Raised e'.
Proof.
  induction data as [|x data IH]; intros Hin He; [contradiction|].
  cbn [convert_dates].
  destruct (to_datetime (Row.invoice_date x)) as [d|ex] eqn:Ex.
  - destruct Hin as [->|Hin]; [congruence|].
    destruct (IH Hin He) as [r' [e' [Hr' [He' Hc]]]].
    exists r', e'. repeat split; [now right|exact He'|].
    cbn [bind]. now rewrite Hc.
  - exists x, ex. repeat split; [now left|exact Ex].
Qed.

(** The conversion keeps the rows in place and changes their date only. *)
Lemma convert_dates_length (data : DataFrame string A)
    (parsed : DataFrame date A) :
  convert_dates to_datetime data = Return parsed ->
  List.length parsed = List.length data.
Proof.
  revert parsed. induction data as [|x data IH]; intros parsed; cbn.
  - now intros [= <-].
  - destruct (to_datetime (Row.invoice_date x)); cbn; [|discriminate].
    destruct (convert_dates to_datetime data); cbn; [|discriminate].
    intros [= <-]. cbn. f_equal. now apply IH.
Qed.

Lemma filter_filter {X : Type} (p q : X -> bool) (l : list X) :
  filter q (filter p l) = filter (fun x => p x && q x) l.
Proof.
  induction l as [|x l IH]; cbn; [reflexivity|].
  destruct (p x); cbn; [destruct (q x)|]; now rewrite IH.
Qed.

Lemma filter_none {X : Type} (p : X -> bool) (l : list X) :
  (forall x, In x l -> p x = false) -> filter p l = [].
Proof.
  induction l as [|x l IH]; intros Hnone; [reflexivity|].
  cbn. rewrite (Hnone x (or_introl eq_refl)).
  apply IH. intros y Hy. apply Hnone. now right.
Qed.

Lemma key_eqb_pair (d1 d2 : date) (s1 s2 : string) :
  key_eqb (d1, s1) (d2, s2) = date_eqb d1 d2 && String.eqb s1 s2.
Proof.
  unfold key_eqb, key_compare, lex, date_eqb. cbn [fst snd].
  destruct (date_compare d1 d2); cbn; try reflexivity.
  destruct (String.eqb_spec s1 s2) as [->|Hne].
  - now rewrite (cmp_refl _ string_laws).
  - destruct (String.compare s1 s2) eqn:E; try reflexivity.
    now apply (cmp_eq _ string_laws) in E.
Qed.

Lemma date_eqb_eq (a b : date) : date_eqb a b = true <-> a = b.
Proof.
  unfold date_eqb. split.
  - destruct (date_compare a b) eqn:E; try discriminate.
    intros _. now apply (cmp_eq _ date_laws).
  - intros ->. now rewrite (cmp_refl _ date_laws).
Qed.

Lemma mask_and_key (lo hi : date) (ty : InvoiceType) (k : key)
    (x : Row.t date A) :
  date_leb lo (fst k) = true -> date_leb (fst k) hi = true ->
  mask lo hi ty x && key_eqb (key_of x) k
  = Selection.behind (fst k) (snd k) ty x.
Proof.
  intros Hlo Hhi. destruct k as [d s]. cbn [fst snd] in *.
  unfold mask, Selection.behind, key_of. rewrite key_eqb_pair.
  destruct (date_eqb (Row.invoice_date x) d) eqn:E.
  - apply date_eqb_eq in E. rewrite E, Hlo, Hhi. cbn.
    apply andb_comm.
  - cbn. now rewrite andb_false_r.
Qed.

(** The rows of one group of a selection, read off the file. *)
Lemma group_rows_selection (lo hi : date) (ty : InvoiceType) (k : key)
    (parsed : DataFrame date A) :
  date_leb lo (fst k) = true -> date_leb (fst k) hi = true ->
  group_rows (filter (mask lo hi ty) parsed) k
  = filter (Selection.behind (fst k) (snd k) ty) parsed.
Proof.
  intros Hlo Hhi. unfold group_rows. rewrite filter_filter.
  apply filter_ext. intros x. now apply mask_and_key.
Qed.

Lemma mask_bounds (lo hi : date) (ty : InvoiceType) (x : Row.t date A) :
  mask lo hi ty x = true ->
  date_leb lo (Row.invoice_date x) = true
  /\ date_leb (Row.invoice_date x) hi = true
  /\ Row.type x = value ty.
Proof.
  unfold mask. rewrite !andb_true_iff, String.eqb_eq. tauto.
Qed.

Lemma behind_key (ty : InvoiceType) (x : Row.t date A) :
  Row.type x = value ty ->
  Selection.behind (Row.invoice_date x) (Row.invoice_type x) ty x = true.
Proof.
  intros Ht. unfold Selection.behind.
  rewrite (proj2 (date_eqb_eq _ _) eq_refl), String.eqb_refl, Ht.
  now rewrite String.eqb_refl.
Qed.

(** The rows of the grouped frame of a selection, one by one. *)
Lemma groupby_sum_selection (lo hi : date) (ty : InvoiceType)
    (parsed : DataFrame date A) (r : Daily.t A) :
  In r (groupby_sum (filter (mask lo hi ty) parsed)) ->
  Selection.within lo hi r = true
  /\ (exists x, In x parsed /\ mask lo hi ty x = true
                /\ key_of x = daily_key r)
  /\ Daily.total_amount r
     = sum (map Row.total_amount
              (filter (Selection.behind (Daily.date r) (Daily.invoice_type r) ty)
                      parsed)).
Proof.
  unfold groupby_sum. intros Hin. apply in_map_iff in Hin.
  destruct Hin as [k [<- Hk]].
  apply group_keys_In, in_map_iff in Hk. destruct Hk as [x [Hx Hsel]].
  apply filter_In in Hsel. destruct Hsel as [Hin Hmask].
  destruct (mask_bounds _ _ _ _ Hmask) as [Hlo [Hhi Hty]].
  assert (Hd : fst k = Row.invoice_date x) by now rewrite <- Hx.
  rewrite <- Hd in Hlo, Hhi.
  cbn [Daily.date Daily.invoice_type Daily.total_amount].
  split; [|split].
  - unfold Selection.within. cbn [Daily.date]. now rewrite Hlo, Hhi.
  - exists x. repeat split; auto. rewrite Hx. now destruct k.
  - now rewrite group_rows_selection.
Qed.
End ExtractorContents.

Import Pandas.

(** Without a missing [invoice_type] cell, leaving out the rows of a
    missing key changes nothing in the grouping. *)
Lemma groupby_sum_dropna_same {A : Type} `{Number A} (df : DataFrame date A) :
  (forall x, In x df -> Missing.isna (Row.invoice_type x) = false) ->
  Missing.groupby_sum_dropna df = groupby_sum df.
Proof.
  intros Hna. unfold Missing.groupby_sum_dropna. f_equal.
  induction df as [|x df IH]; [reflexivity|].
  cbn [filter]. rewrite (Hna x (or_introl eq_refl)). cbn [negb].
  f_equal. apply IH. intros y Hy. apply Hna. now right.
Qed.



(** X2: a single [invoice_date] cell that does not convert makes every
    range query and every single-day query fail, whatever the range and
    the category asked for, also when that row would not be selected;
    the error is the one the conversion of a cell of the file raised. *)
Theorem unparsable_date_fails_every_query {A : Type} `{Number A}
    (to_datetime : string -> Result date)
    (read_csv : string -> Result (DataFrame string A))
    (data : DataFrame string A) (r : Row.t string A) (e : Exception)
    (from_date to_date day : string) (ty : InvoiceType) :
  read_csv InvoicesExtractor.csv_path = Return data ->
  In r data ->
  to_datetime (Row.invoice_date r) = Raised e ->
  exists r' e',
    In r' data
    /\ to_datetime (Row.invoice_date r') = Raised e'
    /\ InvoicesExtractor.extract to_datetime read_csv from_date to_date ty
       = Raised e'
    /\ InvoicesExtractor.get_invoices to_datetime read_csv day ty
       = Raised e'.
Proof.
  intros Hr Hin He.
  destruct (convert_dates_fails to_datetime data r e Hin He)
    as [r' [e' [Hr' [He' Hc]]]].
  exists r', e'. split; [exact Hr'|]. split; [exact He'|].
  unfold InvoicesExtractor.extract, InvoicesExtractor.get_invoices,
    InvoicesExtractor._filter_data.
  rewrite Hr. cbn [bind]. rewrite Hc. split; reflexivity.
Qed.

Lemma unparsable_date_fails_every_query_witness :
  exists r' e',
    In r' MoreExamples.broken_invoices
    /\ Examples.iso_date (Row.invoice_date r') = Raised e'
    /\ InvoicesExtractor.extract Examples.iso_date MoreExamples.read_broken_csv
         "2024-01-01" "2024-01-31" INFLOW
       = Raised e'
    /\ InvoicesExtractor.get_invoices Examples.iso_date
         MoreExamples.read_broken_csv "2024-01-06" INFLOW
       = Raised e'.
Proof.
  apply (unparsable_date_fails_every_query Examples.iso_date
           MoreExamples.read_broken_csv MoreExamples.broken_invoices
           (Examples.row "OUTFLOW" "not a date" "Pago" 10%Q)
           (Examples.DateParseError "not a date")).
  - reflexivity.
  - unfold MoreExamples.broken_invoices. apply in_or_app. right. now left.
  - reflexivity.
Defined.

(** ** Grouping commutes with a selection on the keys *)

Section GroupFilter.
Import Pandas.
Variable P : key -> bool.

Lemma insert_key_below (k : key) (l : list key) :
  Forall (key_lt k) l -> insert_key k l = k :: l.
Proof.
  destruct l as [|x l]; [reflexivity|].
  intros Hall. inversion Hall as [|? ? Hx _]; subst.
  cbn. unfold key_lt in Hx. now rewrite Hx.
Qed.

Lemma filter_insert_key (k : key) (l : list key) :
  StronglySorted key_lt l ->
  filter P (insert_key k l)
  = if P k then insert_key k (filter P l) else filter P l.
Proof.
  induction 1 as [|x l Hs IH Hx]; cbn [insert_key filter].
  - now destruct (P k).
  - destruct (key_compare k x) eqn:E.
    + apply (cmp_eq _ key_laws) in E. subst x. cbn [filter].
      destruct (P k); [|reflexivity].
      cbn [insert_key]. now rewrite (cmp_refl _ key_laws).
    + cbn [filter]. destruct (P k) eqn:Pk; [|reflexivity].
      destruct (P x) eqn:Px.
      * cbn [insert_key]. now rewrite E.
      * symmetry. apply insert_key_below.
        apply Forall_forall. intros y Hy. apply filter_In in Hy.
        rewrite Forall_forall in Hx.
        exact (cmp_trans _ key_laws _ _ _ E (Hx y (proj1 Hy))).
    + cbn [filter]. rewrite IH.
      destruct (P x) eqn:Px; destruct (P k) eqn:Pk; try reflexivity.
      cbn [insert_key]. now rewrite E.
Qed.

Lemma group_keys_filter {A : Type} (df : DataFrame date A) :
  group_keys (filter (fun x => P (key_of x)) df) = filter P (group_keys df).
Proof.
  unfold group_keys. induction df as [|x df IH]; [reflexivity|].
  cbn [map fold_right filter].
  rewrite filter_insert_key by apply (group_keys_sorted df).
  destruct (P (key_of x)); cbn [map fold_right]; now rewrite IH.
Qed.

Lemma group_rows_filter {A : Type} (df : DataFrame date A) (k : key) :
  P k = true ->
  group_rows (filter (fun x => P (key_of x)) df) k = group_rows df k.
Proof.
  intros Pk. unfold group_rows. rewrite filter_filter.
  apply filter_ext. intros x.
  destruct (key_eqb (key_of x) k) eqn:E; [|apply andb_false_r].
  apply key_eqb_eq in E. now rewrite E, Pk.
Qed.

Lemma filter_map_comm {X Y : Type} (f : X -> Y) (q : Y -> bool) (l : list X) :
  filter q (map f l) = map f (filter (fun x => q (f x)) l).
Proof.
  induction l as [|x l IH]; cbn; [reflexivity|].
  destruct (q (f x)); cbn; now rewrite IH.
Qed.

Lemma groupby_sum_filter {A : Type} `{Number A} (df : DataFrame date A) :
  filter (fun r => P (daily_key r)) (groupby_sum df)
  = groupby_sum (filter (fun x => P (key_of x)) df).
Proof.
  unfold groupby_sum. rewrite filter_map_comm, group_keys_filter.
  unfold daily_key. cbn [Daily.date Daily.invoice_type].
  rewrite (filter_ext (fun k => P (fst k, snd k)) P)
    by (now intros [d s]).
  apply map_ext_in. intros k Hk. apply filter_In in Hk.
  now rewrite (group_rows_filter df k (proj2 Hk)).
Qed.
End GroupFilter.

(** X3: narrowing the range of a query selects rows of its result: the
    frame for a range is the frame for any wider range of the same
    category, cut down to the rows dated within the narrower one, totals
    included. *)
Theorem extract_narrower_range {A : Type} `{Number A}
    (to_datetime : string -> Result date)
    (read_csv : string -> Result (DataFrame string A))
    (data : DataFrame string A) (parsed : DataFrame date A)
    (from_date to_date from_wide to_wide : string)
    (lo hi lo' hi' : date) (ty : InvoiceType) :
  read_csv InvoicesExtractor.csv_path = Return data ->
  InvoicesExtractor.convert_dates to_datetime data = Return parsed ->
  to_datetime from_date = Return lo ->
  to_datetime to_date = Return hi ->
  to_datetime from_wide = Return lo' ->
  to_datetime to_wide = Return hi' ->
  date_leb lo' lo = true ->
  date_leb hi hi' = true ->
  exists wide narrow,
    InvoicesExtractor.extract to_datetime read_csv from_wide to_wide ty
    = Return wide
    /\ InvoicesExtractor.extract to_datetime read_csv from_date to_date ty
       = Return narrow
    /\ narrow = filter (Selection.within lo hi) wide.
Proof.
  intros Hr Hp Hlo Hhi Hlo' Hhi' Hle1 Hle2.
  do 2 eexists.
  split; [exact (extract_returns _ _ _ _ _ _ _ _ _ Hr Hp Hlo' Hhi')|].
  split; [exact (extract_returns _ _ _ _ _ _ _ _ _ Hr Hp Hlo Hhi)|].
  pose proof (groupby_sum_filter
                (fun k => date_leb lo (fst k) && date_leb (fst k) hi)
                (filter (InvoicesExtractor.mask lo' hi' ty) parsed)) as Hg.
  cbn [fst daily_key] in Hg. unfold Selection.within.
  etransitivity; [|symmetry; exact Hg].
  f_equal. rewrite filter_filter. apply filter_ext. intros x.
  unfold InvoicesExtractor.mask, key_of. cbn [fst].
  destruct (date_leb lo (Row.invoice_date x)) eqn:E1;
    [|now rewrite andb_false_r].
  destruct (date_leb (Row.invoice_date x) hi) eqn:E2;
    [|now rewrite !andb_false_r].
  rewrite (date_leb_trans _ _ _ Hle1 E1), (date_leb_trans _ _ _ E2 Hle2).
  cbn. now rewrite andb_true_r.
Qed.

Lemma extract_narrower_range_witness :
  exists wide narrow,
    Examples.extract "2024-01-01" "2024-01-31" INFLOW = Return wide
    /\ Examples.extract "2024-01-06" "2024-01-10" INFLOW = Return narrow
    /\ narrow
       = filter (Selection.within (mkdate 2024 1 6) (mkdate 2024 1 10)) wide.
Proof.
  exact (extract_narrower_range Examples.iso_date Examples.read_csv
           Examples.invoices MoreExamples.parsed_invoices
           "2024-01-06" "2024-01-10" "2024-01-01" "2024-01-31"
           (mkdate 2024 1 6) (mkdate 2024 1 10)
           (mkdate 2024 1 1) (mkdate 2024 1 31) INFLOW
           eq_refl eq_refl eq_refl eq_refl eq_refl eq_refl eq_refl eq_refl).
Defined.

(** ** app/agents/financial_analysis_agent.py: invariants of a run *)

Section RunFacts.
Import FinancialAnalysisAgent Transcript.
Context {A : Type} `{Number A}.
Variable to_datetime : string -> Result date.
Variable read_csv : string -> Result (DataFrame string A).
Variable to_json : DataFrame date A -> Result string.
Variable model : list Message -> Result (string * list ToolCall).
Variable tool_error : ToolCall -> string.

Abbreviation graph := (graph to_datetime read_csv to_json model tool_error).
Abbreviation tool_node := (tool_node to_datetime read_csv to_json tool_error).
Abbreviation run_tool := (run_tool to_datetime read_csv to_json tool_error).

Lemma graph_END (fuel : nat) (state : State) (turns : nat) :
  graph fuel END state turns = (Return state, turns).
Proof. now destruct fuel. Qed.

Lemma tool_node_inv (state state' : State) :
  tool_node state = Return state' ->
  exists c calls,
    last_message state = Some (AIMessage c calls)
    /\ state' = add_messages state (map run_tool calls).
Proof.
  unfold FinancialAnalysisAgent.tool_node.
  destruct (last_message state) as [[c|c calls|c i]|]; try discriminate.
  intros [= <-]. now exists c, calls.
Qed.

Lemma count_ai_app (l1 l2 : list Message) :
  count_ai (l1 ++ l2) = count_ai l1 + count_ai l2.
Proof. unfold count_ai. now rewrite filter_app, List.length_app. Qed.

Lemma count_ai_tools (calls : list ToolCall) :
  count_ai (map run_tool calls) = 0.
Proof.
  unfold count_ai. induction calls as [|call calls IH]; [reflexivity|].
  cbn [map filter]. unfold FinancialAnalysisAgent.run_tool at 1.
  cbn [is_ai]. exact IH.
Qed.

(** A run only appends to the transcript, leaves the anomaly alone, and
    appends one message of the reasoner per call of the model. *)
Lemma graph_appends (fuel : nat) (node : Node) (state final : State)
    (turns turns' : nat) :
  graph fuel node state turns = (Return final, turns') ->
  exists added,
    messages final = (messages state ++ added)%list
    /\ anomaly final = anomaly state
    /\ turns' = turns + count_ai added.
Proof.
  revert node state turns.
  induction fuel as [|fuel IH]; intros node state turns.
  - destruct node; cbn; try discriminate.
    intros [= <- <-]. exists []. rewrite app_nil_r. repeat split. cbn. lia.
  - destruct node; cbn [FinancialAnalysisAgent.graph].
    + destruct (chatbot model state) as [state'|e] eqn:Hc; [|discriminate].
      apply chatbot_inv in Hc. destruct Hc as [c [calls [Hm ->]]].
      rewrite should_continue_after. intros Hrun.
      apply IH in Hrun. destruct Hrun as [added [Hmsg [Han Ht]]].
      exists (AIMessage c calls :: added). cbn [add_messages messages anomaly] in *.
      rewrite <- app_assoc in Hmsg. repeat split; auto.
      change (AIMessage c calls :: added) with ([AIMessage c calls] ++ added)%list.
      rewrite count_ai_app. cbn. lia.
    + destruct (FinancialAnalysisAgent.tool_node _ _ _ _ state)
        as [state'|e] eqn:Hn; [|discriminate].
      apply tool_node_inv in Hn. destruct Hn as [c [calls [_ ->]]].
      intros Hrun. apply IH in Hrun. destruct Hrun as [added [Hmsg [Han Ht]]].
      exists (map run_tool calls ++ added)%list.
      cbn [add_messages messages anomaly] in *.
      rewrite <- app_assoc in Hmsg. repeat split; auto.
      rewrite count_ai_app, count_ai_tools. lia.
    + intros [= <- <-]. exists []. rewrite app_nil_r. repeat split. cbn. lia.
Qed.

(** What a run raises comes from the model or from the step limit. *)
Lemma graph_raises (fuel : nat) (node : Node) (state : State) (turns : nat)
    (e : Exception) :
  match node with
  | tools_node => exists c calls, last_message state = Some (AIMessage c calls)
  | _ => True
  end ->
  fst (graph fuel node state turns) = Raised e ->
  e = GraphRecursionError \/ exists transcript, model transcript = Raised e.
Proof.
  revert node state turns.
  induction fuel as [|fuel IH]; intros node state turns Hnode.
  - destruct node; cbn; try discriminate; intros [= <-]; now left.
  - destruct node; cbn [FinancialAnalysisAgent.graph]; [| |discriminate].
    + unfold chatbot.
      destruct (model (messages state)) as [[c calls]|e'] eqn:Hm; cbn [bind fst].
      * rewrite should_continue_after. apply IH.
        destruct calls; [exact I|]. eexists _, _. apply last_message_add1.
      * intros [= <-]. right. now exists (messages state).
    + destruct Hnode as [c [calls Hl]].
      rewrite (tool_node_returns _ _ _ _ _ _ _ Hl). now apply IH.
Qed.

(** Fuel left over is never used. *)
Lemma graph_more_fuel (fuel fuel' : nat) (node : Node) (state final : State)
    (turns turns' : nat) :
  fuel <= fuel' ->
  graph fuel node state turns = (Return final, turns') ->
  graph fuel' node state turns = (Return final, turns').
Proof.
  revert fuel' node state turns.
  induction fuel as [|fuel IH]; intros fuel' node state turns Hle.
  - destruct node; cbn; try discriminate.
    intros [= <- <-]. apply graph_END.
  - destruct fuel' as [|fuel']; [lia|].
    destruct node; cbn [FinancialAnalysisAgent.graph]; [| |auto].
    + destruct (chatbot model state) as [state'|e]; [|discriminate].
      destruct (should_continue state') as [next|e]; [|discriminate].
      apply IH. lia.
    + destruct (FinancialAnalysisAgent.tool_node _ _ _ _ state)
        as [state'|e]; [|discriminate].
      apply IH. lia.
Qed.
End RunFacts.

(** C7: when the data fetch behind a tool call raises, the tool returns
    the text of the error, the tool node appends it to the transcript as
    the answer to that call, and the run goes on: the reasoner is called
    next on the transcript that holds the error, and the run then does
    what that turn decides (it returns when the turn has no request,
    runs the tools again when it has, and raises only what the model
    raises); whatever the run raises from there is the step limit's
    error or an error of the model, not the error of the fetch. *)
Theorem tool_failure_becomes_tool_message {A : Type} `{Number A}
    (to_datetime : string -> Result date)
    (read_csv : string -> Result (DataFrame string A))
    (to_json : DataFrame date A -> Result string)
    (model : list Message -> Result (string * list ToolCall))
    (tool_error : ToolCall -> string)
    (state : State) (c : string) (calls : list ToolCall) (call : ToolCall)
    (day : string) (ty : InvoiceType) (e : Exception) (fuel turns : nat) :
  last_message state = Some (AIMessage c calls) ->
  In call calls ->
  name call = "extract_invoices" ->
  get (args call) "date" = Some day ->
  get (args call) "invoice_type" = Some (value ty) ->
  InvoicesExtractor.get_invoices to_datetime read_csv day ty = Raised e ->
  let run_tool := run_tool to_datetime read_csv to_json tool_error in
  let graph := graph to_datetime read_csv to_json model tool_error in
  let answer := ToolMessage ("Error extracting invoices: " ++ exc_str e)
                            (id call) in
  extract_invoices to_datetime read_csv to_json day ty
  = "Error extracting invoices: " ++ exc_str e
  /\ run_tool call = answer
  /\ exists state',
       tool_node to_datetime read_csv to_json tool_error state = Return state'
       /\ messages state' = (messages state ++ map run_tool calls)%list
       /\ In answer (messages state')
       /\ graph (S fuel) tools_node state turns
          = graph fuel chatbot_node state' turns
       /\ (forall c',
             model (messages state') = Return (c', []) ->
             graph (S (S fuel)) tools_node state turns
             = (Return (add_messages state' [AIMessage c' []]), S turns))
       /\ (forall c' call' calls',
             model (messages state') = Return (c', call' :: calls') ->
             graph (S (S fuel)) tools_node state turns
             = graph fuel tools_node
                 (add_messages state' [AIMessage c' (call' :: calls')])
                 (S turns))
       /\ (forall e',
             model (messages state') = Raised e' ->
             graph (S (S fuel)) tools_node state turns
             = (Raised e', S turns))
       /\ (forall fuel' e',
             fst (graph fuel' tools_node state turns) = Raised e' ->
             e' = GraphRecursionError
             \/ exists transcript, model transcript = Raised e').
Proof.
  intros Hlast Hin Hname Hdate Htype Hfetch run_tool graph answer.
  assert (Htool : extract_invoices to_datetime read_csv to_json day ty
                  = "Error extracting invoices: " ++ exc_str e).
  { unfold extract_invoices. now rewrite Hfetch. }
  assert (Hrun : run_tool call = answer).
  { unfold run_tool, FinancialAnalysisAgent.run_tool, answer.
    rewrite Hname, Hdate, Htype. cbn [String.eqb Ascii.eqb Bool.eqb option_map].
    now rewrite InvoiceType_of_value_value, Htool. }
  split; [exact Htool|]. split; [exact Hrun|].
  set (state' := add_messages state (map run_tool calls)).
  exists state'.
  pose proof (tool_node_returns to_datetime read_csv to_json tool_error
                state c calls Hlast) as Hnode.
  fold run_tool in Hnode. fold state' in Hnode.
  assert (Hstep : forall fuel0,
            graph (S fuel0) tools_node state turns
            = graph fuel0 chatbot_node state' turns).
  { intros fuel0. unfold graph. cbn [FinancialAnalysisAgent.graph].
    now rewrite Hnode. }
  split; [exact Hnode|]. split; [reflexivity|]. split.
  { unfold state'. cbn [add_messages messages]. apply in_or_app. right.
    rewrite <- Hrun. now apply in_map. }
  split; [apply Hstep|]. split; [|split; [|split]].
  - intros c' Hm. rewrite Hstep. unfold graph.
    cbn [FinancialAnalysisAgent.graph].
    rewrite (chatbot_returns _ _ _ _ Hm), should_continue_after.
    apply graph_END.
  - intros c' call' calls' Hm. rewrite Hstep. unfold graph.
    cbn [FinancialAnalysisAgent.graph].
    now rewrite (chatbot_returns _ _ _ _ Hm), should_continue_after.
  - intros e' Hm. rewrite Hstep. unfold graph.
    cbn [FinancialAnalysisAgent.graph]. unfold chatbot. now rewrite Hm.
  - intros fuel' e'. unfold graph. apply graph_raises. now exists c, calls.
Qed.

Lemma tool_failure_becomes_tool_message_witness :
  extract_invoices Examples.iso_date Examples.no_csv Examples.to_json
    "2024-01-27" INFLOW
  = "Error extracting invoices: No such file or directory: ../data/invoices.csv"
  /\ graph Examples.iso_date Examples.no_csv Examples.to_json
       Examples.scripted_model Examples.tool_error
       3 tools_node Examples.requested 1
     = (Return
          (mkState
             [ HumanMessage "Analyze the anomaly of 2024-01-27.";
               AIMessage "" [Examples.fetch "2024-01-27"];
               ToolMessage
                 "Error extracting invoices: No such file or directory: ../data/invoices.csv"
                 "call_1";
               AIMessage "Analysis of the fetched invoices." [] ]
             "2024-01-27"),
        2).
Proof.
  destruct (tool_failure_becomes_tool_message
              Examples.iso_date Examples.no_csv Examples.to_json
              Examples.scripted_model Examples.tool_error
              Examples.requested "" [Examples.fetch "2024-01-27"]
              (Examples.fetch "2024-01-27") "2024-01-27" INFLOW
              (Examples.FileNotFoundError InvoicesExtractor.csv_path) 1 1
              eq_refl (or_introl eq_refl) eq_refl eq_refl eq_refl eq_refl)
    as [Htool [_ [state' [Hnode [_ [_ [_ [Hdone _]]]]]]]].
  split; [exact Htool|].
  injection Hnode as <-.
  exact (Hdone "Analysis of the fetched invoices." eq_refl).
Defined.

Import FinancialAnalysisAgent Transcript.

(** X4: a run that returns has only appended to the transcript: its
    first message is still the instruction, the [anomaly] field is the
    one given, and the messages of the reasoner among the appended ones
    are as many as the calls of the model. *)
Theorem run_appends_to_transcript {A : Type} `{Number A}
    (to_datetime : string -> Result date)
    (read_csv : string -> Result (DataFrame string A))
    (to_json : DataFrame date A -> Result string)
    (model : list Message -> Result (string * list ToolCall))
    (tool_error : ToolCall -> string)
    (recursion_limit : nat) (anomaly_data invoices_type : string)
    (final : State) (turns : nat) :
  run to_datetime read_csv to_json model tool_error recursion_limit
      anomaly_data invoices_type
  = (Return final, turns) ->
  exists added,
    messages final
    = HumanMessage (initial_message anomaly_data invoices_type) :: added
    /\ anomaly final = anomaly_data
    /\ count_ai added = turns.
Proof.
  unfold run, invoke. intros Hrun.
  apply graph_appends in Hrun. destruct Hrun as [added [Hmsg [Han Ht]]].
  exists added. cbn [messages anomaly app] in *. repeat split; auto.
Qed.

Lemma run_appends_to_transcript_witness :
  exists added,
    messages
      (mkState
         [ HumanMessage (initial_message "2024-01-27" "INFLOW");
           AIMessage "" [Examples.fetch "2024-01-27"];
           ToolMessage "[2024-01-27 Traslado]" "call_1";
           AIMessage "Analysis of the fetched invoices." [] ]
         "2024-01-27")
    = HumanMessage (initial_message "2024-01-27" "INFLOW") :: added
    /\ anomaly
         (mkState
            [ HumanMessage (initial_message "2024-01-27" "INFLOW");
              AIMessage "" [Examples.fetch "2024-01-27"];
              ToolMessage "[2024-01-27 Traslado]" "call_1";
              AIMessage "Analysis of the fetched invoices." [] ]
            "2024-01-27")
       = "2024-01-27"
    /\ count_ai added = 2.
Proof.
  apply (run_appends_to_transcript Examples.iso_date Examples.read_csv
           Examples.to_json Examples.scripted_model Examples.tool_error
           25 "2024-01-27" "INFLOW").
  vm_compute. reflexivity.
Defined.

(** X5: whatever a run raises is either the step limit's
    [GraphRecursionError] or an error the model raised on some
    transcript; an error of a tool, or of the nodes reading the
    transcript, never reaches the caller. *)
Theorem run_raises_model_errors_only {A : Type} `{Number A}
    (to_datetime : string -> Result date)
    (read_csv : string -> Result (DataFrame string A))
    (to_json : DataFrame date A -> Result string)
    (model : list Message -> Result (string * list ToolCall))
    (tool_error : ToolCall -> string)
    (recursion_limit : nat) (anomaly_data invoices_type : string)
    (e : Exception) :
  fst (run to_datetime read_csv to_json model tool_error recursion_limit
           anomaly_data invoices_type)
  = Raised e ->
  e = GraphRecursionError \/ exists transcript, model transcript = Raised e.
Proof.
  unfold run, invoke. apply graph_raises. exact I.
Qed.

Lemma run_raises_model_errors_only_witness :
  MoreExamples.APIError = GraphRecursionError
  \/ exists transcript,
       MoreExamples.failing_model transcript = Raised MoreExamples.APIError.
Proof.
  exact (run_raises_model_errors_only Examples.iso_date Examples.read_csv
           Examples.to_json MoreExamples.failing_model Examples.tool_error
           25 "2024-01-27" "INFLOW" MoreExamples.APIError eq_refl).
Defined.

(** X6: the step limit only decides whether a run is cut short: a run
    that returns under one limit returns the same final state, after the
    same number of calls of the model, under every larger limit. *)
Theorem run_stable_under_larger_limit {A : Type} `{Number A}
    (to_datetime : string -> Result date)
    (read_csv : string -> Result (DataFrame string A))
    (to_json : DataFrame date A -> Result string)
    (model : list Message -> Result (string * list ToolCall))
    (tool_error : ToolCall -> string)
    (limit limit' : nat) (anomaly_data invoices_type : string)
    (final : State) (turns : nat) :
  limit <= limit' ->
  run to_datetime read_csv to_json model tool_error limit
      anomaly_data invoices_type
  = (Return final, turns) ->
  run to_datetime read_csv to_json model tool_error limit'
      anomaly_data invoices_type
  = (Return final, turns).
Proof.
  unfold run, invoke. intros Hle. now apply graph_more_fuel.
Qed.

Lemma run_stable_under_larger_limit_witness :
  Examples.run Examples.scripted_model 25 "2024-01-27" "INFLOW"
  = (Return
       (mkState
          [ HumanMessage (initial_message "2024-01-27" "INFLOW");
            AIMessage "" [Examples.fetch "2024-01-27"];
            ToolMessage "[2024-01-27 Traslado]" "call_1";
            AIMessage "Analysis of the fetched invoices." [] ]
          "2024-01-27"),
     2).
Proof.
  unfold Examples.run.
  apply (run_stable_under_larger_limit Examples.iso_date Examples.read_csv
           Examples.to_json Examples.scripted_model Examples.tool_error
           3 25 "2024-01-27" "INFLOW").
  - lia.
  - vm_compute. reflexivity.
Defined.

(** ** services/belvo_service.py: what the token tells *)

Section TokenFacts.
Import Base64 Text.

Lemma b64encode_inj (a b : bytes) : b64encode a = b64encode b -> a = b.
Proof.
  intros E. apply (f_equal b64decode) in E.
  rewrite !b64decode_b64encode in E. congruence.
Qed.

Lemma decode_inj (a b : bytes) : decode a = decode b -> a = b.
Proof.
  intros E. apply (f_equal encode) in E. now rewrite !encode_decode in E.
Qed.

Lemma encode_inj (a b : string) : encode a = encode b -> a = b.
Proof.
  intros E. apply (f_equal decode) in E. now rewrite !decode_encode in E.
Qed.

(** A text is cut at its first colon in one way only. *)
Lemma cut_at_colon (a b x y : string) :
  has_char ":" a = false -> has_char ":" b = false ->
  a ++ ":" ++ x = b ++ ":" ++ y -> a = b /\ x = y.
Proof.
  revert b. induction a as [|c a IH]; intros [|d b]; cbn [append has_char].
  - intros _ _ [= ->]. now split.
  - intros _ Hb [= <- _]. now rewrite Ascii.eqb_refl in Hb.
  - intros Ha _ [= -> _]. now rewrite Ascii.eqb_refl in Ha.
  - intros Ha Hb [= -> E].
    apply orb_false_iff in Ha, Hb.
    destruct (IH b (proj2 Ha) (proj2 Hb) E) as [-> ->]. now split.
Qed.

Lemma enc_b64_char (n : N) : (n < 64)%N -> b64_char (enc n) = true.
Proof. intros Hn. unfold b64_char. now rewrite dec_enc. Qed.

Lemma pad_b64_char : b64_char pad = true.
Proof. reflexivity. Qed.

Local Ltac sextet := apply enc_b64_char; zify; Z.to_euclidean_division_equations; lia.

Lemma b64encode_chars (s : bytes) :
  Forall (fun c => b64_char c = true) (b64encode s).
Proof.
  induction s as [|a|a b|a b c rest IH] using bytes_ind3.
  - constructor.
  - pose proof (val_bound a).
    cbn [b64encode]. unfold enc1.
    repeat constructor; try apply pad_b64_char; sextet.
  - pose proof (val_bound a). pose proof (val_bound b).
    cbn [b64encode]. unfold enc2.
    repeat constructor; try apply pad_b64_char; sextet.
  - pose proof (val_bound a). pose proof (val_bound b).
    pose proof (val_bound c).
    cbn [b64encode]. apply Forall_app. split; [|exact IH].
    unfold enc3. repeat constructor; sextet.
Qed.

Lemma b64encode_length (s : bytes) :
  List.length (b64encode s) = 4 * ((List.length s + 2) / 3).
Proof.
  induction s as [|a|a b|a b c rest IH] using bytes_ind3; try reflexivity.
  cbn [b64encode]. rewrite List.length_app, IH.
  cbn [List.length enc3].
  replace (S (S (S (List.length rest))) + 2)
    with (List.length rest + 2 + 1 * 3) by lia.
  rewrite Nat.div_add by discriminate. lia.
Qed.

Lemma decode_length (b : bytes) : String.length (decode b) = List.length b.
Proof.
  unfold decode. induction b as [|c b IH]; cbn; [reflexivity|now rewrite IH].
Qed.

Lemma encode_length (s : string) : List.length (encode s) = String.length s.
Proof.
  unfold encode. induction s as [|c s IH]; cbn; [reflexivity|now rewrite IH].
Qed.
End TokenFacts.



(** With a colon in the client id the token no longer tells the two
    parts apart. *)
Example token_collision_with_colon :
  BelvoService.generate_auth_token
    (BelvoService.__init__ [("client_id", "a:b"); ("client_secret", "c")])
  = BelvoService.generate_auth_token
      (BelvoService.__init__ [("client_id", "a"); ("client_secret", "b:c")]).
Proof. reflexivity. Qed.

(** X8: a configuration without [client_id] does not make the token
    fail: the text [None] is sent in its place, so the token decodes to
    [None:] followed by the secret, and without a secret either the
    header is that of the credentials [None:None]. *)
Theorem missing_client_id_sends_None (config : dict) :
  get config "client_id" = None ->
  let self := BelvoService.__init__ config in
  option_map Base64.decode
    (Base64.b64decode (Base64.encode (BelvoService.generate_auth_token self)))
  = Some ("None:" ++ BelvoService.fmt (get config "client_secret"))
  /\ (get config "client_secret" = None ->
      BelvoService.get_auth_header self
      = [ ("Authorization", "Basic Tm9uZTpOb25l") ]).
Proof.
  intros Hid self.
  unfold BelvoService.get_auth_header, BelvoService.generate_auth_token,
    self, BelvoService.__init__.
  cbn [BelvoService.client_id BelvoService.client_secret].
  rewrite Hid. cbn [BelvoService.fmt]. split.
  - rewrite encode_decode, b64decode_b64encode.
    cbn [option_map]. now rewrite decode_encode.
  - intros ->. reflexivity.
Qed.

Lemma missing_client_id_sends_None_witness :
  option_map Base64.decode
    (Base64.b64decode
       (Base64.encode
          (BelvoService.generate_auth_token
             (BelvoService.__init__ MoreExamples.url_only_config))))
  = Some "None:None"
  /\ (get MoreExamples.url_only_config "client_secret" = None ->
      BelvoService.get_auth_header
        (BelvoService.__init__ MoreExamples.url_only_config)
      = [ ("Authorization", "Basic Tm9uZTpOb25l") ]).
Proof.
  exact (missing_client_id_sends_None MoreExamples.url_only_config eq_refl).
Defined.

(** X9: the token is four characters for every three bytes of
    [client_id:client_secret], rounded up, and each of its characters is
    one of the base64 alphabet or the padding [=]. *)
Theorem token_shape (self : BelvoService.BelvoService) :
  let text := BelvoService.fmt (BelvoService.client_id self) ++ ":"
              ++ BelvoService.fmt (BelvoService.client_secret self) in
  let token := BelvoService.generate_auth_token self in
  String.length token = 4 * ((String.length text + 2) / 3)
  /\ Forall (fun c => Text.b64_char c = true) (list_ascii_of_string token).
Proof.
  intros text token. unfold token, BelvoService.generate_auth_token.
  fold text. split.
  - now rewrite decode_length, b64encode_length, encode_length.
  - change (list_ascii_of_string ?s) with (Base64.encode s).
    rewrite encode_decode. apply b64encode_chars.
Qed.

(** ** scripts/etl_transactions.py: reading the page number *)

Section PageFacts.
Import Etl Text.

Lemma digits_uint (d : Decimal.uint) (post : string) :
  digits (DecimalString.NilEmpty.string_of_uint d ++ post)
  = DecimalString.NilEmpty.string_of_uint d ++ digits post.
Proof. induction d; cbn; now rewrite ?IHd. Qed.

Lemma digits_str (n : N) (post : string) :
  digits post = "" -> digits (str n ++ post) = str n.
Proof.
  intros Hpost. unfold str. rewrite digits_uint, Hpost.
  induction (DecimalString.NilEmpty.string_of_uint (N.to_uint n)) as [|c s IH];
    cbn; [reflexivity|now rewrite IH].
Qed.

Lemma int_str (n : N) : int (str n) = Some n.
Proof.
  unfold int, str. rewrite DecimalString.NilEmpty.usu. cbn.
  now rewrite DecimalN.Unsigned.of_to.
Qed.

Lemma str_nonempty (n : N) : str n <> "".
Proof.
  unfold str. destruct n as [|p]; [discriminate|]. cbn [N.to_uint].
  pose proof (DecimalPos.Unsigned.to_uint_nonnil p) as Hp.
  destruct (Pos.to_uint p); try discriminate. now elim Hp.
Qed.

Lemma strip_prefix_spec (p s r : string) :
  strip_prefix p s = Some r -> s = p ++ r.
Proof.
  revert s. induction p as [|a p IH]; intros s; cbn.
  - now intros [= ->].
  - destruct s as [|b s]; [discriminate|].
    destruct (Ascii.eqb_spec a b) as [->|]; [|discriminate].
    intros E. now rewrite (IH _ E).
Qed.

Lemma strip_prefix_app (p r : string) : strip_prefix p (p ++ r) = Some r.
Proof.
  induction p as [|a p IH]; cbn; [reflexivity|].
  now rewrite Ascii.eqb_refl.
Qed.

(** Before its first [=] a text holds no match of [page=]. *)
Lemma no_match_before_equals (c : ascii) (pre tail : string) :
  has_char "=" (String c pre) = false ->
  match_here (String c pre ++ "page=" ++ tail) = None.
Proof.
  intros Hno. unfold match_here.
  destruct (strip_prefix "page=" (String c pre ++ "page=" ++ tail))
    as [rest|] eqn:E; [|reflexivity].
  exfalso. apply strip_prefix_spec in E.
  destruct pre as [|c2 [|c3 [|c4 [|c5 pre]]]]; cbn in E, Hno;
    try discriminate.
  injection E as _ _ _ _ E5 _. subst c5.
  rewrite !orb_false_iff in Hno. destruct Hno as [_ [_ [_ [_ [H5 _]]]]].
  discriminate.
Qed.

Lemma search_here (s ds : string) :
  match_here s = Some ds -> search s = Some ds.
Proof. intros Hm. destruct s; cbn [search]; now rewrite Hm. Qed.

Lemma search_skip (c : ascii) (s : string) :
  match_here (String c s) = None -> search (String c s) = search s.
Proof. intros Hm. cbn [search]. now rewrite Hm. Qed.

Lemma search_first_page (pre : string) (n : N) (post : string) :
  has_char "=" pre = false ->
  digits post = "" ->
  search (pre ++ "page=" ++ str n ++ post) = Some (str n).
Proof.
  intros Hno Hpost. induction pre as [|c pre IH].
  - apply search_here. unfold match_here.
    change ("" ++ "page=" ++ str n ++ post) with ("page=" ++ (str n ++ post)).
    rewrite strip_prefix_app, digits_str by exact Hpost.
    destruct (str n) eqn:En; [now apply str_nonempty in En|reflexivity].
  - change ((String c pre) ++ "page=" ++ str n ++ post)
      with (String c (pre ++ "page=" ++ str n ++ post)).
    rewrite search_skip.
    + apply IH. cbn in Hno. now apply orb_false_iff in Hno.
    + exact (no_match_before_equals c pre _ Hno).
Qed.

Lemma get_page_first_page (pre : string) (n : N) (post : string) :
  has_char "=" pre = false ->
  digits post = "" ->
  get_page (pre ++ "page=" ++ str n ++ post) = Some n.
Proof.
  intros Hno Hpost. unfold get_page.
  rewrite (search_first_page pre n post Hno Hpost). apply int_str.
Qed.

Lemma has_char_app (c : ascii) (a b : string) :
  has_char c (a ++ b) = has_char c a || has_char c b.
Proof.
  induction a as [|x a IH]; cbn; [reflexivity|].
  now rewrite IH, orb_assoc.
Qed.
End PageFacts.

Lemma append_assoc (a b c : string) : (a ++ b) ++ c = a ++ b ++ c.
Proof. induction a as [|x a IH]; cbn; [reflexivity|now rewrite IH]. Qed.

(** X10: the page number the services write into the address of a
    request is the one [get_page] reads from it: for every link, page
    and page size, and every base address without [=], the address
    [get_transactions] (or [get_employment_records]) requests for a page
    is read back as that page. *)
Theorem get_page_reads_requested_page
    (self : BelvoService.BelvoService) (link_id : string)
    (page page_size : N) :
  Text.has_char "=" (BelvoService.fmt (BelvoService.base_url self)) = false ->
  Etl.get_page (OFDAService.url self link_id page page_size) = Some page
  /\ Etl.get_page (EmploymentRecordsMXService.url self link_id page page_size)
     = Some page.
Proof.
  intros Hbase.
  unfold OFDAService.url, OFDAService.endpoint,
    EmploymentRecordsMXService.url, EmploymentRecordsMXService.endpoint.
  set (base := BelvoService.fmt (BelvoService.base_url self)) in *.
  split.
  - change ("/api/transactions/?page=" ++ ?x)
      with ("/api/transactions/?" ++ "page=" ++ x).
    rewrite <- append_assoc.
    apply get_page_first_page; [|reflexivity].
    now rewrite has_char_app, Hbase.
  - change ("/api/employment-records/?page=" ++ ?x)
      with ("/api/employment-records/?" ++ "page=" ++ x).
    rewrite <- append_assoc.
    apply get_page_first_page; [|reflexivity].
    now rewrite has_char_app, Hbase.
Qed.

Lemma get_page_reads_requested_page_witness :
  Etl.get_page
    (OFDAService.url MoreExamples.sandbox "e0f02811-39f3" 7 100)
  = Some 7%N
  /\ Etl.get_page
       (EmploymentRecordsMXService.url MoreExamples.sandbox "e0f02811-39f3"
          7 100)
     = Some 7%N.
Proof.
  exact (get_page_reads_requested_page MoreExamples.sandbox "e0f02811-39f3"
           7 100 eq_refl).
Defined.

(** Addresses [get_page] reads, and addresses it does not. *)
Example get_page_examples :
  Etl.get_page "https://sandbox.belvo.com/api/transactions/?link=x&page=12"
  = Some 12%N
  /\ Etl.get_page "https://sandbox.belvo.com/api/transactions/?page_size=100&page=3"
     = Some 3%N
  /\ Etl.get_page "https://sandbox.belvo.com/api/transactions/?offset=200"
     = None
  /\ Etl.get_page "https://sandbox.belvo.com/api/transactions/?page=&link=x"
     = None
  /\ Etl.get_page "https://sandbox.belvo.com/api/transactions/?page=0"
     = Some 0%N.
Proof. repeat split; vm_compute; reflexivity. Qed.

(** ** scripts/etl_transactions.py: the loop over the pages *)

Section LoopFacts.
Import Etl.
Context {R : Type}.
Variable requests_get : string -> dict -> Result (Page R).
Variable ofda_service : BelvoService.BelvoService.
Variable link_id : string.

Abbreviation loop := (loop requests_get ofda_service link_id).
Abbreviation crawl := (crawl requests_get ofda_service link_id).

Lemma loop_stops (fuel : nat) (page : option N) (all : list R) :
  page = None \/ page = Some 0%N -> loop fuel page all = Some (Return all).
Proof. intros [->| ->]; now destruct fuel. Qed.

Lemma loop_step (fuel : nat) (page : N) (all : list R) (t : Page R) :
  page <> 0%N ->
  OFDAService.get_transactions requests_get ofda_service link_id page 100
  = Return t ->
  loop (S fuel) (Some page) all
  = loop fuel (next_page t) (all ++ results t)%list.
Proof.
  intros Hp Ht. destruct page as [|p]; [congruence|].
  cbn [Etl.loop]. now rewrite Ht.
Qed.

Lemma loop_of_crawl (page : option N) (pages : list (Page R)) :
  crawl page pages ->
  forall fuel all,
    List.length pages <= fuel ->
    loop fuel page all
    = Some (Return (all ++ List.concat (map results pages))%list).
Proof.
  induction 1 as [| |page t rest Hp Ht Hrest IH]; intros fuel all Hfuel.
  - cbn [map List.concat]. rewrite app_nil_r. apply loop_stops. now left.
  - cbn [map List.concat]. rewrite app_nil_r. apply loop_stops. now right.
  - destruct fuel as [|fuel]; [cbn in Hfuel; lia|].
    rewrite (loop_step fuel page all t Hp Ht).
    rewrite IH by (cbn in Hfuel; lia).
    cbn [map List.concat]. now rewrite app_assoc.
Qed.

Lemma crawl_of_loop (fuel : nat) (page : option N) (all result : list R) :
  loop fuel page all = Some (Return result) ->
  exists pages,
    crawl page pages
    /\ result = (all ++ List.concat (map results pages))%list
    /\ List.length pages <= fuel.
Proof.
  revert page all. induction fuel as [|fuel IH]; intros page all.
  - destruct page as [[|p]|]; cbn; try discriminate;
      intros [= <-]; exists []; cbn; rewrite app_nil_r;
      repeat split; auto; constructor.
  - destruct page as [[|p]|]; cbn [Etl.loop].
    + intros [= <-]. exists []. cbn. rewrite app_nil_r.
      repeat split; [constructor|lia].
    + destruct (OFDAService.get_transactions requests_get ofda_service
                  link_id (N.pos p) 100) as [t|e] eqn:Ht; [|discriminate].
      intros Hloop. apply IH in Hloop.
      destruct Hloop as [pages [Hc [Hres Hlen]]].
      exists (t :: pages). split; [|split].
      * now constructor.
      * cbn [map List.concat]. now rewrite app_assoc.
      * cbn. lia.
    + intros [= <-]. exists []. cbn. rewrite app_nil_r.
      repeat split; [constructor|lia].
Qed.
End LoopFacts.



(** X12: a [next] link from which [get_page] reads no page number, or
    reads page 0, ends the export: the first answer's records are
    returned without an error and no further page is requested. *)
Theorem collect_stops_without_page_number {R : Type}
    (requests_get : string -> dict -> Result (Page R))
    (ofda_service : BelvoService.BelvoService) (link_id : string)
    (first : Page R) (url : string) (fuel : nat) :
  OFDAService.get_transactions requests_get ofda_service link_id 1 100
  = Return first ->
  next first = Some url ->
  Etl.get_page url = None \/ Etl.get_page url = Some 0%N ->
  Etl.collect requests_get ofda_service link_id (S fuel)
  = Some (Return (results first)).
Proof.
  intros Hfirst Hnext Hpage. unfold Etl.collect.
  rewrite (loop_step _ _ _ fuel 1%N [] first) by (discriminate || exact Hfirst).
  cbn [app]. apply loop_stops.
  unfold Etl.next_page. rewrite Hnext.
  destruct url; [now left|exact Hpage].
Qed.

Lemma collect_stops_without_page_number_witness :
  Etl.collect MoreExamples.by_offset MoreExamples.sandbox "x" 5
  = Some (Return ["t1"; "t2"]).
Proof.
  apply (collect_stops_without_page_number MoreExamples.by_offset
           MoreExamples.sandbox "x"
           (mkPage ["t1"; "t2"]
              (Some "https://sandbox.belvo.com/api/transactions/?offset=2"))
           "https://sandbox.belvo.com/api/transactions/?offset=2" 4).
  - vm_compute. reflexivity.
  - reflexivity.
  - left. vm_compute. reflexivity.
Defined.

(** ** scripts/etl_transactions.py: the columns that are written *)

Section FrameFacts.
Import Frame.

Lemma mem_In (k : string) (l : list string) : mem k l = true <-> In k l.
Proof.
  unfold mem. rewrite existsb_exists. split.
  - intros [x [Hx E]]. apply String.eqb_eq in E. now subst.
  - intros Hk. exists k. split; [exact Hk|apply String.eqb_refl].
Qed.

Lemma add_keys_In (keys seen : list string) (c : string) :
  In c (add_keys keys seen) <-> In c seen \/ In c keys.
Proof.
  revert seen. induction keys as [|k keys IH]; intros seen; cbn.
  - tauto.
  - rewrite IH. destruct (mem k seen) eqn:E.
    + apply mem_In in E. split; [tauto|]. intros [H|[<-|H]]; auto.
    + rewrite in_app_iff. cbn. tauto.
Qed.

Lemma add_keys_NoDup (keys seen : list string) :
  NoDup seen -> NoDup (add_keys keys seen).
Proof.
  revert seen. induction keys as [|k keys IH]; intros seen Hs; cbn; [exact Hs|].
  apply IH. destruct (mem k seen) eqn:E; [exact Hs|].
  apply NoDup_app; [exact Hs|repeat constructor; auto|].
  intros x Hx [<-|[]]. apply mem_In in Hx. congruence.
Qed.

Lemma fold_keys_In (records : list record) (seen : list string) (c : string) :
  In c (fold_left (fun seen r => add_keys (map fst r) seen) records seen)
  <-> In c seen \/ exists r, In r records /\ In c (map fst r).
Proof.
  revert seen. induction records as [|r records IH]; intros seen; cbn.
  - split; [tauto|]. intros [H|[r [[] _]]]. exact H.
  - rewrite IH, add_keys_In. split.
    + intros [[H|H]|[r' [Hr' Hc]]]; eauto.
    + intros [H|[r' [[<-|Hr'] Hc]]]; eauto.
Qed.

Lemma fold_keys_NoDup (records : list record) (seen : list string) :
  NoDup seen ->
  NoDup (fold_left (fun seen r => add_keys (map fst r) seen) records seen).
Proof.
  revert seen. induction records as [|r records IH]; intros seen Hs; cbn;
    [exact Hs|].
  apply IH. now apply add_keys_NoDup.
Qed.

Lemma columns_In (records : list record) (c : string) :
  In c (columns records) <-> exists r, In r records /\ In c (map fst r).
Proof. unfold columns. rewrite fold_keys_In. cbn. tauto. Qed.

Lemma columns_NoDup (records : list record) : NoDup (columns records).
Proof. apply fold_keys_NoDup. constructor. Qed.

Lemma no_isna (cells : list (option string)) :
  existsb isna cells = false <-> forall v, In v cells -> v <> None.
Proof.
  induction cells as [|x cells IH]; cbn.
  - split; [intros _ v []|reflexivity].
  - rewrite orb_false_iff, IH. split.
    + intros [Hx Hall] v [<-|Hv]; [now destruct x|auto].
    + intros Hall. split; [|auto].
      destruct x; [reflexivity|]. now elim (Hall None (or_introl eq_refl)).
Qed.

Lemma lookup_In (r : record) (c : string) (v : option string) :
  lookup r c = Some v -> In c (map fst r).
Proof.
  induction r as [|[k w] r IH]; cbn; [discriminate|].
  destruct (String.eqb_spec k c) as [->|]; [now left|]. intros E. right. auto.
Qed.

Lemma cell_key (r : record) (c v : string) :
  cell c r = Some v -> In c (map fst r).
Proof.
  unfold cell. destruct (lookup r c) as [w|] eqn:E; [|discriminate].
  intros _. exact (lookup_In _ _ _ E).
Qed.
End FrameFacts.

(** X13: a column is written to the file exactly when every record
    fetched holds a value under its name that is not null (one null, or
    one record without the key, removes the column for all records); a
    column that is written holds the value of each record, in the order
    of the records, and no name is written twice. *)
Theorem export_keeps_complete_columns (records : list Frame.record) :
  (forall c cells,
      In (c, cells) (Frame.export records) <->
      In c (Frame.columns records)
      /\ cells = map (Frame.cell c) records
      /\ forall r, In r records -> exists v, Frame.cell c r = Some v)
  /\ (forall c,
        records <> [] ->
        (In c (map fst (Frame.export records)) <->
         forall r, In r records -> exists v, Frame.cell c r = Some v))
  /\ NoDup (map fst (Frame.export records)).
Proof.
  assert (Hcol : forall c cells,
            In (c, cells) (Frame.export records) <->
            In c (Frame.columns records)
            /\ cells = map (Frame.cell c) records
            /\ forall r, In r records -> exists v, Frame.cell c r = Some v).
  { intros c cells. unfold Frame.export, Frame.dropna, Frame.DataFrame.
    rewrite filter_In, in_map_iff, negb_true_iff. cbn [snd].
    rewrite no_isna. split.
    - intros [[c' [[= -> <-] Hc]] Hall]. repeat split; auto.
      intros r Hr. destruct (Frame.cell c r) as [v|] eqn:E; [now exists v|].
      elim (Hall None); [|reflexivity]. rewrite <- E. now apply in_map.
    - intros [Hc [-> Hall]]. split; [now exists c|].
      intros v Hv. apply in_map_iff in Hv. destruct Hv as [r [<- Hr]].
      destruct (Hall r Hr) as [w ->]. discriminate. }
  split; [exact Hcol|]. split.
  - intros c Hne. rewrite in_map_iff. split.
    + intros [[c' cells] [Hfst Hin]]. cbn in Hfst. subst c'.
      apply Hcol in Hin. tauto.
    + intros Hall. exists (c, map (Frame.cell c) records). split; [reflexivity|].
      apply Hcol. repeat split; auto.
      destruct records as [|r records]; [congruence|].
      destruct (Hall r (or_introl eq_refl)) as [v Hv].
      apply columns_In. exists r. split; [now left|exact (cell_key _ _ _ Hv)].
  - unfold Frame.export, Frame.dropna, Frame.DataFrame.
    assert (Hsub : forall (l : list string),
              NoDup l ->
              NoDup (map fst
                (filter (fun col : Frame.column =>
                           negb (existsb Frame.isna (snd col)))
                   (map (fun c => (c, map (Frame.cell c) records)) l)))).
    { induction l as [|c l IH]; intros Hl; cbn; [constructor|].
      inversion Hl as [|? ? Hc Hl']; subst.
      destruct (negb _); cbn; [|auto].
      constructor; [|auto].
      intros Hin. apply in_map_iff in Hin. destruct Hin as [[c' cs] [Ec Hin]].
      cbn in Ec. subst c'. apply filter_In in Hin. destruct Hin as [Hin _].
      apply in_map_iff in Hin. destruct Hin as [c'' [[= -> _] Hc'']].
      contradiction. }
    apply Hsub, columns_NoDup.
Qed.

(** In the example the [payroll] column goes, for its one null. *)
Example export_two_records :
  Frame.export MoreExamples.two_records
  = [ ("id", [Some "67b1"; Some "c570"]);
      ("invoice_date", [Some "2024-01-06"; Some "2024-01-27"]) ].
Proof. reflexivity. Qed.

Lemma export_keeps_complete_columns_witness :
  In "invoice_date" (map fst (Frame.export MoreExamples.two_records)) <->
  forall r, In r MoreExamples.two_records ->
            exists v, Frame.cell "invoice_date" r = Some v.
Proof.
  apply (proj1 (proj2 (export_keeps_complete_columns MoreExamples.two_records))).
  discriminate.
Defined.

(** ** app/streamlit_app.py: the choice of an anomaly *)

Section SplitFacts.
Import Streamlit Text.

Lemma append_empty_r (s : string) : s ++ "" = s.
Proof. induction s as [|c s IH]; cbn; [reflexivity|now rewrite IH]. Qed.

Lemma split_from_no_space (a rest piece : string) :
  has_char " " a = false ->
  split_from " | " (a ++ rest) 0 piece = split_from " | " rest 0 (piece ++ a).
Proof.
  revert piece. induction a as [|c a IH]; intros piece Ha.
  - cbn [append]. now rewrite append_empty_r.
  - cbn [has_char] in Ha. apply orb_false_iff in Ha. destruct Ha as [Hc Ha].
    cbn [append split_from String.prefix].
    rewrite Ascii.eqb_sym in Hc.
    destruct (Ascii.eqb_spec c " ") as [->|Hne]; [discriminate|].
    destruct (ascii_dec " " c) as [<-|_]; [congruence|].
    rewrite IH by exact Ha. f_equal.
    rewrite append_assoc. reflexivity.
Qed.

Lemma split_from_separator (t piece : string) :
  split_from " | " (" | " ++ t) 0 piece = piece :: split_from " | " t 0 "".
Proof. destruct t; reflexivity. Qed.

Lemma split_label (d t : string) :
  has_char " " d = false -> has_char " " t = false ->
  split " | " (label d t) = [d; t].
Proof.
  intros Hd Ht. unfold split, label.
  rewrite (split_from_no_space d _ "" Hd), split_from_separator.
  cbn [append]. f_equal.
  rewrite <- (append_empty_r t) at 1.
  rewrite (split_from_no_space t "" "" Ht). reflexivity.
Qed.

Lemma value_no_space (m : InvoiceTypeOutput.t) :
  has_char " " (InvoiceTypeOutput.value m) = false.
Proof. now destruct m. Qed.
End SplitFacts.

(** X14: the entry of the selector is read back into its two parts: for
    a date text without a space and any of the five invoice types, the
    split of [date | type] yields exactly that date and that type, and
    the unpacking into two names does not fail. *)
Theorem selected_reads_back_label (date : string) (m : InvoiceTypeOutput.t) :
  Text.has_char " " date = false ->
  Streamlit.selected (Streamlit.label date (InvoiceTypeOutput.value m))
  = Return (date, InvoiceTypeOutput.value m).
Proof.
  intros Hd. unfold Streamlit.selected.
  now rewrite (split_label _ _ Hd (value_no_space m)).
Qed.

Lemma selected_reads_back_label_witness :
  Streamlit.selected "2024-01-27 | Traslado" = Return ("2024-01-27", "Traslado").
Proof.
  exact (selected_reads_back_label "2024-01-27" InvoiceTypeOutput.TRASLADO
           eq_refl).
Defined.

(** A part that holds the separator breaks the unpacking. *)
Example selected_with_separator_inside :
  Streamlit.selected (Streamlit.label "2024-01-27" "Pago | Traslado")
  = Raised Streamlit.UnpackError.
Proof. reflexivity. Qed.


